(** * GCodeLoaderLayer: the G-code interpreter of [public/GCodeLoaderLayer.js]

    A shallow embedding of [GCodeLoaderLayer.parse] and of the module-level
    tool index [tcode], followed by the properties of the interpreter.

    Modelling choices.
    - A JavaScript number is a value of [num]: an exact rational or [NaN]
      (what [parseFloat] gives for a token that is not a number).  Rounding
      to binary64, infinities and the sign of zero are outside the model.
    - A JavaScript string is a [string] of code units; case mapping acts on
      the ASCII letters, which is all the recognised command codes and
      parameter keys consist of.
    - The object [args] is a finite map from property names to numbers.
    - [state] and [line] are objects of one shape; a property that an object
      does not have ([extruding] and [relative] on [line]) reads as
      [undefined], modelled by [None].
    - [layers] is the array of layer objects and [currentLayer] a reference
      into it (an index), so that a push through [currentLayer] is seen
      through [layers].
    - [tcode] is state of the module: [parse] receives it and hands it back.
    - No statement of the loop can throw (every property read is guarded or
      on an object that exists), so its body is a total function.
    - The returned group is the list of its children; the conversion of the
      positions to 32-bit floats, which acts on each coordinate on its own,
      and the rotation of the group are left out. *)

From Stdlib Require Import Ascii String QArith.
From stdpp Require Import base option list strings gmap.

Local Open Scope string_scope.
Local Open Scope list_scope.

(** ** Numbers *)

Inductive num : Type :=
| NaN
| Fin (q : Q).

Definition num_of_Z (n : Z) : num := Fin (inject_Z n).

(** [a + b] *)
Definition nadd (a b : num) : num :=
  match a, b with
  | Fin p, Fin q => Fin (Qplus p q)
  | _, _ => NaN
  end.

(** [a - b] *)
Definition nsub (a b : num) : num :=
  match a, b with
  | Fin p, Fin q => Fin (Qminus p q)
  | _, _ => NaN
  end.

(** [a > b]: false as soon as one side is NaN. *)
Definition ngt (a b : num) : bool :=
  match a, b with
  | Fin p, Fin q => negb (Qle_bool p q)
  | _, _ => false
  end.

(** [a != b] on numbers: true as soon as one side is NaN. *)
Definition nneq (a b : num) : bool :=
  match a, b with
  | Fin p, Fin q => negb (Qeq_bool p q)
  | _, _ => true
  end.

(** Truthiness of a property holding a boolean or [undefined]. *)
Definition truthy (v : option bool) : bool :=
  match v with
  | Some b => b
  | None => false
  end.

(** ** Strings *)

Definition is_line_terminator (c : ascii) : bool :=
  (Ascii.eqb c "010" || Ascii.eqb c "013")%char.

(** [data.replace(/;.+/g, '')]: a semicolon followed by at least one
    character of the same line is removed together with the rest of that
    line.  [skipping] is true inside a match. *)
Fixpoint strip_comments (skipping : bool) (s : string) : string :=
  match s with
  | EmptyString => EmptyString
  | String c r =>
      if skipping then
        if is_line_terminator c then String c (strip_comments false r)
        else strip_comments true r
      else if Ascii.eqb c ";" then
        match r with
        | String d _ =>
            if is_line_terminator d then String c (strip_comments false r)
            else strip_comments true r
        | EmptyString => String c EmptyString
        end
      else String c (strip_comments false r)
  end.

(** [s.split(sep)] for a separator of one character. *)
Fixpoint split (sep : ascii) (s : string) : list string :=
  match s with
  | EmptyString => [EmptyString]
  | String c r =>
      if Ascii.eqb c sep then EmptyString :: split sep r
      else match split sep r with
           | t :: ts => String c t :: ts
           | [] => [String c EmptyString]
           end
  end.

(** [s.includes(needle)] *)
Fixpoint includes (needle s : string) : bool :=
  String.prefix needle s ||
  match s with
  | EmptyString => false
  | String _ r => includes needle r
  end.

Definition upper_ascii (c : ascii) : ascii :=
  let n := nat_of_ascii c in
  if (97 <=? n)%nat && (n <=? 122)%nat then ascii_of_nat (n - 32) else c.

Definition lower_ascii (c : ascii) : ascii :=
  let n := nat_of_ascii c in
  if (65 <=? n)%nat && (n <=? 90)%nat then ascii_of_nat (n + 32) else c.

Fixpoint toUpperCase (s : string) : string :=
  match s with
  | EmptyString => EmptyString
  | String c r => String (upper_ascii c) (toUpperCase r)
  end.

Definition newline : string := String "010"%char EmptyString.

(** ** A reader for decimal literals

    [parseFloat] is a built-in; the interpreter below takes it as a
    parameter.  [parseFloat_dec] is the instance used to run the interpreter
    on concrete texts: on a token that starts with an optional sign, digits
    and an optional fraction it returns the exact value of that prefix, and
    [NaN] when there is no digit, as [parseFloat] does (exponents and
    [Infinity] are not read). *)

Definition digit_of (c : ascii) : option Z :=
  let n := nat_of_ascii c in
  if (48 <=? n)%nat && (n <=? 57)%nat then Some (Z.of_nat (n - 48)) else None.

(** Reads the digits at the head of [s]: their value on top of [acc], how
    many there are, and what follows them. *)
Fixpoint read_digits (s : string) (acc : Z) (count : nat) : Z * nat * string :=
  match s with
  | EmptyString => (acc, count, s)
  | String c r =>
      match digit_of c with
      | Some d => read_digits r (10 * acc + d)%Z (S count)
      | None => (acc, count, s)
      end
  end.

Fixpoint pow10 (n : nat) : positive :=
  match n with
  | O => 1%positive
  | S k => (10 * pow10 k)%positive
  end.

Definition read_unsigned (s : string) : option Q :=
  let '(ip, ni, rest) := read_digits s 0%Z 0%nat in
  match rest with
  | String "."%char r =>
      let '(all, nf, _) := read_digits r ip 0%nat in
      if ((ni + nf)%nat =? 0)%nat then None else Some (Qmake all (pow10 nf))
  | _ => if (ni =? 0)%nat then None else Some (inject_Z ip)
  end.

Definition parseFloat_dec (s : string) : num :=
  match s with
  | String "-"%char r =>
      match read_unsigned r with Some q => Fin (Qopp q) | None => NaN end
  | String "+"%char r =>
      match read_unsigned r with Some q => Fin q | None => NaN end
  | _ =>
      match read_unsigned s with Some q => Fin q | None => NaN end
  end.

(** ** Data of the interpreter *)

(** The objects [state] and [line] (and the points [p1], [p2] handed to
    [addSegment], which are the same objects). *)
Module State.
Record t : Type := mk {
  x : num;
  y : num;
  z : num;
  e : num;
  f : num;
  extruding : option bool;
  relative : option bool
}.
End State.

(** A layer object: three flat coordinate arrays and the layer's [z]. *)
Module Layer.
Record t : Type := mk {
  vertex : list num;
  pathVertex : list num;
  supportVertex : list num;
  z : num
}.
End Layer.

(** What the loop of [parse] works on: the local variables [state],
    [layers], [currentLayer] and the module-level [tcode]. *)
Record Interp : Type := mkInterp {
  state : State.t;
  layers : list Layer.t;
  currentLayer : option nat;
  tcode : nat
}.

Inductive Material : Type :=
| extrudingMaterial
| pathMaterial
| supportMaterial.

(** A child of the returned group: the [LineSegments] built by [addObject],
    with its positions, its material and the [i] of its name ["layer" + i]. *)
Record LineSegments : Type := mkLineSegments {
  positions : list num;
  material : Material;
  name_index : nat
}.

(** The loader object: its one option. *)
Record GCodeLoaderLayer : Type := mkLoader {
  splitLayer : bool
}.

(** [constructor(manager)] *)
Definition constructor : GCodeLoaderLayer := {| splitLayer := true |}.

(** [let tcode = 0] at module level. *)
Definition tcode_init : nat := 0.

(** [state] at the start of [parse]. *)
Definition state_init : State.t :=
  State.mk (num_of_Z 0) (num_of_Z 0) (num_of_Z 0) (num_of_Z 0) (num_of_Z 0)
           (Some false) (Some false).

Definition interp_init (tc : nat) : Interp :=
  {| state := state_init; layers := []; currentLayer := None; tcode := tc |}.

Definition set_state (st : State.t) (it : Interp) : Interp :=
  {| state := st; layers := layers it; currentLayer := currentLayer it;
     tcode := tcode it |}.

Definition set_tcode (tc : nat) (it : Interp) : Interp :=
  {| state := state it; layers := layers it; currentLayer := currentLayer it;
     tcode := tc |}.

(** ** The closures of [parse] *)

Definition newLayer (line : State.t) (it : Interp) : Interp :=
  {| state := state it;
     layers := layers it ++ [Layer.mk [] [] [] (State.z line)];
     currentLayer := Some (length (layers it));
     tcode := tcode it |}.

Definition push_vertex (vs : list num) (l : Layer.t) : Layer.t :=
  Layer.mk (Layer.vertex l ++ vs) (Layer.pathVertex l) (Layer.supportVertex l)
           (Layer.z l).

Definition push_pathVertex (vs : list num) (l : Layer.t) : Layer.t :=
  Layer.mk (Layer.vertex l) (Layer.pathVertex l ++ vs) (Layer.supportVertex l)
           (Layer.z l).

Definition push_supportVertex (vs : list num) (l : Layer.t) : Layer.t :=
  Layer.mk (Layer.vertex l) (Layer.pathVertex l) (Layer.supportVertex l ++ vs)
           (Layer.z l).

(** The six coordinates pushed for the segment from [p1] to [p2]. *)
Definition segment (p1 p2 : State.t) : list num :=
  [State.x p1; State.y p1; State.z p1; State.x p2; State.y p2; State.z p2].

(** The branch of [addSegment] taken for a flag and a tool. *)
Definition push_segment (extr : bool) (tc : nat) (vs : list num)
  : Layer.t -> Layer.t :=
  if extr && (tc =? 1)%nat then push_vertex vs
  else if extr && (tc =? 0)%nat then push_supportVertex vs
  else push_pathVertex vs.

Definition addSegment (p1 p2 : State.t) (tc : nat) (it : Interp) : Interp :=
  let it1 := match currentLayer it with
             | None => newLayer p1 it
             | Some _ => it
             end in
  match currentLayer it1 with
  | Some c =>
      {| state := state it1;
         layers := alter (push_segment (truthy (State.extruding (state it1)))
                                       tc (segment p1 p2)) c (layers it1);
         currentLayer := currentLayer it1;
         tcode := tcode it1 |}
  | None => it1
  end.

Definition delta (st : State.t) (v1 v2 : num) : num :=
  if truthy (State.relative st) then v2 else nsub v2 v1.

Definition absolute (st : State.t) (v1 v2 : num) : num :=
  if truthy (State.relative st) then nadd v1 v2 else v2.

(** ** One line of the loop *)

(** [line.includes("T1")] then [line.includes("T0")]. *)
Definition tool_markers (line : string) (tc : nat) : nat :=
  let tc1 := if includes "T1" line then 1%nat else tc in
  if includes "T0" line then 0%nat else tc1.

(** [tokens[0].toUpperCase()] *)
Definition cmd_of (line : string) : string :=
  match split " "%char line with
  | t :: _ => toUpperCase t
  | [] => EmptyString
  end.

(** ** Notions used in the statements *)

(** [currentLayer] is [undefined] before the first layer and refers to the
    last element of [layers] afterwards. *)
Definition current_is_last (it : Interp) : Prop :=
  match currentLayer it with
  | None => layers it = []
  | Some c => length (layers it) = S c
  end.

(** The three classifications of a segment. *)
Inductive Class : Type :=
| Extruded
| Support
| Travel.

#[global] Instance Class_eq_dec : EqDecision Class.
Proof. solve_decision. Defined.

#[global] Instance Material_eq_dec : EqDecision Material.
Proof. solve_decision. Defined.

(** The array of a layer that holds the segments of a classification. *)
Definition class_list (c : Class) (l : Layer.t) : list num :=
  match c with
  | Extruded => Layer.vertex l
  | Support => Layer.supportVertex l
  | Travel => Layer.pathVertex l
  end.

(** All coordinates of a classification, layer after layer. *)
Definition all_of (c : Class) (ls : list Layer.t) : list num :=
  concat (map (class_list c) ls).

(** The classification as the specification words it: extruding with tool 1
    is extruded, extruding with tool 0 is support, anything else travel. *)
Definition classify (extr : bool) (tool : nat) : Class :=
  match extr, tool with
  | true, 1%nat => Extruded
  | true, 0%nat => Support
  | _, _ => Travel
  end.

(** The tool that is active when the command of [line] is processed. *)
Definition active_tool (line : string) (it : Interp) : nat :=
  tool_markers line (tcode it).

(** The positions of the children of a group that carry material [m]. *)
Definition positions_of (m : Material) (object : list LineSegments)
  : list (list num) :=
  map positions (filter (fun o => material o = m) object).

(** The array of a layer that [addObject] receives with material [m]. *)
Definition material_list (m : Material) (l : Layer.t) : list num :=
  match m with
  | extrudingMaterial => Layer.vertex l
  | pathMaterial => Layer.pathVertex l
  | supportMaterial => Layer.supportVertex l
  end.

Definition recognised (cmd : string) : bool :=
  String.eqb cmd "G0" || String.eqb cmd "G1" || String.eqb cmd "G2" ||
  String.eqb cmd "G3" || String.eqb cmd "G90" || String.eqb cmd "G91" ||
  String.eqb cmd "G92".

(** A line whose command code is G0 or G1. *)
Definition is_linear (line : string) : bool :=
  String.eqb (cmd_of line) "G0" || String.eqb (cmd_of line) "G1".

(** The number of coordinates a layer holds, over its three arrays. *)
Definition layer_size (l : Layer.t) : nat :=
  length (Layer.vertex l) + length (Layer.pathVertex l) +
  length (Layer.supportVertex l).

(** The number of coordinates all layers hold. *)
Definition coordinates (ls : list Layer.t) : nat :=
  sum_list_with layer_size ls.

(** Each value of the list differs, by [!=], from the one before it. *)
Fixpoint adjacent_differ (zs : list num) : bool :=
  match zs with
  | a :: (b :: _) as rest => nneq b a && adjacent_differ rest
  | _ => true
  end.

(** The three children [addObject] makes of the layer of index [i] when
    [splitLayer] is set. *)
Definition layer_children (i : nat) (l : Layer.t) : list LineSegments :=
  [mkLineSegments (Layer.vertex l) extrudingMaterial i;
   mkLineSegments (Layer.pathVertex l) pathMaterial i;
   mkLineSegments (Layer.supportVertex l) supportMaterial i].

Section Interpreter.

Variable parseFloat : string -> num.

(** The [forEach] over [tokens.splice(1)] that fills [args]. *)
Definition add_arg (args : gmap string num) (token : string)
  : gmap string num :=
  match token with
  | String c rest =>
      <[String (lower_ascii c) EmptyString := parseFloat rest]> args
  | EmptyString => args
  end.

Definition args_of (line : string) : gmap string num :=
  foldl add_arg ∅ (tail (split " "%char line)).

(** One coordinate of the object literal [line]. *)
Definition coord (st : State.t) (arg : option num) (cur : num) : num :=
  match arg with
  | Some v => absolute st cur v
  | None => cur
  end.

(** The object literal [line] of the G0/G1 branch. *)
Definition target (st : State.t) (args : gmap string num) (tc : nat)
  : State.t :=
  if (tc =? 0)%nat then
    State.mk (coord st (args !! "x") (State.x st))
             (coord st (args !! "y") (State.y st))
             (coord st (args !! "z") (State.z st))
             (coord st (args !! "e") (State.e st))
             (coord st (args !! "f") (State.f st))
             None None
  else
    State.mk (match args !! "x" with
              | Some v => absolute st (State.x st) (nsub v (num_of_Z 22))
              | None => State.x st
              end)
             (coord st (args !! "y") (State.y st))
             (coord st (args !! "z") (State.z st))
             (coord st (args !! "e") (State.e st))
             (coord st (args !! "f") (State.f st))
             None None.

(** [currentLayer == undefined || line.z != currentLayer.z] *)
Definition layer_changes (line : State.t) (it : Interp) : bool :=
  match currentLayer it with
  | None => true
  | Some c =>
      match layers it !! c with
      | Some l => nneq (State.z line) (Layer.z l)
      | None => true
      end
  end.

Definition set_extruding (b : bool) (st : State.t) : State.t :=
  State.mk (State.x st) (State.y st) (State.z st) (State.e st) (State.f st)
           (Some b) (State.relative st).

Definition set_relative (b : bool) (st : State.t) : State.t :=
  State.mk (State.x st) (State.y st) (State.z st) (State.e st) (State.f st)
           (State.extruding st) (Some b).

(** The value of [delta(state.e, line.e)] in the G0/G1 branch. *)
Definition extrusion_delta (st line : State.t) : num :=
  delta st (State.e st) (State.e line).

(** The block guarded by [delta(state.e, line.e) > 0]. *)
Definition detect_layer (line : State.t) (it : Interp) : Interp :=
  if ngt (extrusion_delta (state it) line) (num_of_Z 0) then
    let it1 :=
      set_state
        (set_extruding (ngt (extrusion_delta (state it) line) (num_of_Z 0))
                       (state it)) it in
    if layer_changes line it1 then newLayer line it1 else it1
  else it.

(** The G0/G1 branch. *)
Definition linear_move (args : gmap string num) (it : Interp) : Interp :=
  let line := target (state it) args (tcode it) in
  let it1 := detect_layer line it in
  let it2 := addSegment (state it1) line (tcode it1) it1 in
  set_state line it2.

(** The G92 branch: [state] is updated in place. *)
Definition set_position (args : gmap string num) (st : State.t) : State.t :=
  State.mk (default (State.x st) (args !! "x"))
           (default (State.y st) (args !! "y"))
           (default (State.z st) (args !! "z"))
           (default (State.e st) (args !! "e"))
           (State.f st) (State.extruding st) (State.relative st).

(** The chain of [if]s on [cmd]. *)
Definition dispatch (cmd : string) (args : gmap string num) (it : Interp)
  : Interp :=
  if String.eqb cmd "G0" || String.eqb cmd "G1" then linear_move args it
  else if String.eqb cmd "G2" || String.eqb cmd "G3" then it
  else if String.eqb cmd "G90" then
    set_state (set_relative false (state it)) it
  else if String.eqb cmd "G91" then
    set_state (set_relative true (state it)) it
  else if String.eqb cmd "G92" then
    set_state (set_position args (state it)) it
  else it.

(** The body of the loop over [lines]. *)
Definition processLine (it : Interp) (line : string) : Interp :=
  let it1 := set_tcode (tool_markers line (tcode it)) it in
  dispatch (cmd_of line) (args_of line) it1.

Definition lines_of (data : string) : list string :=
  split "010"%char (strip_comments false data).

Definition run (it : Interp) (lines : list string) : Interp :=
  foldl processLine it lines.

(** ** Building the returned group *)

Definition addObject (vertex : list num) (m : Material) (i : nat)
                     (object : list LineSegments) : list LineSegments :=
  object ++ [mkLineSegments vertex m i].

(** The loop of the [splitLayer] branch, from index [i] on. *)
Fixpoint split_objects (ls : list Layer.t) (i : nat)
                       (object : list LineSegments) : list LineSegments :=
  match ls with
  | [] => object
  | layer :: rest =>
      let o1 := addObject (Layer.vertex layer) extrudingMaterial i object in
      let o2 := addObject (Layer.pathVertex layer) pathMaterial i o1 in
      let o3 := addObject (Layer.supportVertex layer) supportMaterial i o2 in
      split_objects rest (S i) o3
  end.

(** [for (j ...) acc.push(src[j])] *)
Definition push_each (src acc : list num) : list num :=
  foldl (fun a v => a ++ [v]) acc src.

(** The outer loop of the other branch, on the three accumulators. *)
Definition flatten_layers (ls : list Layer.t)
  : list num * list num * list num :=
  foldl (fun '(vertex, pathVertex, supportVertex) layer =>
           (push_each (Layer.vertex layer) vertex,
            push_each (Layer.pathVertex layer) pathVertex,
            push_each (Layer.supportVertex layer) supportVertex))
        ([], [], []) ls.

Definition build_object (loader : GCodeLoaderLayer) (ls : list Layer.t)
  : list LineSegments :=
  if splitLayer loader then split_objects ls 0 []
  else
    let '(vertex, pathVertex, supportVertex) := flatten_layers ls in
    addObject supportVertex supportMaterial (length ls)
      (addObject pathVertex pathMaterial (length ls)
         (addObject vertex extrudingMaterial (length ls) [])).

(** [parse(data)], with the module's [tcode] before and after the call. *)
Definition parse (loader : GCodeLoaderLayer) (tc : nat) (data : string)
  : list LineSegments * nat :=
  let it := run (interp_init tc) (lines_of data) in
  (build_object loader (layers it), tcode it).

(** The layers [parse] builds, before they are turned into the group. *)
Definition parse_layers (tc : nat) (data : string) : list Layer.t :=
  layers (run (interp_init tc) (lines_of data)).


(** * Properties *)

(** ** Arithmetic of [num] *)



(** ** Arrays of layers *)

Lemma alter_last {A} (g : A -> A) (ls : list A) (l : A) :
alter g (length ls) (ls ++ [l]) = ls ++ [g l].
Proof.
rewrite alter_app_r_alt by lia.
by replace (length ls - length ls)%nat with 0%nat by lia.
Qed.

Lemma last_index_split {A} (ls : list A) (c : nat) :
length ls = S c -> exists init l, ls = init ++ [l] /\ length init = c.
Proof.
intros Hlen.
destruct (decide (ls = [])) as [->|Hne]; [done|].
apply exists_last in Hne as (init & l & ->).
exists init, l. split; [done|].
rewrite length_app in Hlen. simpl in Hlen. lia.
Qed.

Lemma all_of_app (c : Class) (ls1 ls2 : list Layer.t) :
all_of c (ls1 ++ ls2) = all_of c ls1 ++ all_of c ls2.
Proof. unfold all_of. by rewrite map_app, concat_app. Qed.

Lemma all_of_singleton (c : Class) (l : Layer.t) :
all_of c [l] = class_list c l.
Proof. unfold all_of. simpl. by rewrite app_nil_r. Qed.

(** The branch of [addSegment] extends the array of the classification and
  no other. *)
Lemma class_list_push_segment (c : Class) (extr : bool) (tc : nat)
    (vs : list num) (l : Layer.t) :
class_list c (push_segment extr tc vs l) =
class_list c l ++ (if decide (c = classify extr tc) then vs else []).
Proof.
unfold push_segment, classify.
destruct extr; simpl.
- destruct tc as [|[|n]]; simpl; destruct c; simpl;
    by rewrite ?app_nil_r.
- destruct c; simpl; by rewrite ?app_nil_r.
Qed.

Lemma push_segment_z (extr : bool) (tc : nat) (vs : list num) (l : Layer.t) :
Layer.z (push_segment extr tc vs l) = Layer.z l.
Proof.
unfold push_segment.
by destruct (extr && (tc =? 1)%nat), (extr && (tc =? 0)%nat).
Qed.

(** ** The reference [currentLayer] *)

Lemma current_is_last_init (tc : nat) : current_is_last (interp_init tc).
Proof. reflexivity. Qed.

Lemma current_is_last_newLayer (p : State.t) (it : Interp) :
current_is_last (newLayer p it).
Proof. unfold current_is_last; simpl. rewrite length_app; simpl; lia. Qed.

Lemma current_is_last_set_state (st : State.t) (it : Interp) :
current_is_last it -> current_is_last (set_state st it).
Proof. done. Qed.

Lemma current_is_last_set_tcode (tc : nat) (it : Interp) :
current_is_last it -> current_is_last (set_tcode tc it).
Proof. done. Qed.

Lemma current_is_last_addSegment (p1 p2 : State.t) (tc : nat) (it : Interp) :
current_is_last it -> current_is_last (addSegment p1 p2 tc it).
Proof.
intros Hw. unfold addSegment.
destruct (currentLayer it) as [c|] eqn:Hc.
- rewrite Hc. unfold current_is_last in *; simpl.
  rewrite Hc in *. by rewrite length_alter.
- simpl. unfold current_is_last; simpl.
  rewrite length_alter, length_app; simpl; lia.
Qed.

Lemma current_is_last_detect_layer (line : State.t) (it : Interp) :
current_is_last it -> current_is_last (detect_layer line it).
Proof.
intros Hw. unfold detect_layer.
destruct (ngt _ _); [|done].
destruct (layer_changes _ _); [apply current_is_last_newLayer|done].
Qed.

(** What [addSegment] does to the coordinates of each classification, when
  [currentLayer] refers to the last layer. *)
Lemma all_of_addSegment (c : Class) (p1 p2 : State.t) (tc : nat)
    (it : Interp) :
current_is_last it ->
all_of c (layers (addSegment p1 p2 tc it)) =
all_of c (layers it) ++
(if decide (c = classify (truthy (State.extruding (state it))) tc)
 then segment p1 p2 else []).
Proof.
intros Hw. unfold addSegment.
destruct (currentLayer it) as [n|] eqn:Hc.
- rewrite Hc; simpl.
  unfold current_is_last in Hw; rewrite Hc in Hw.
  destruct (last_index_split _ _ Hw) as (init & l & -> & <-).
  rewrite alter_last, !all_of_app, !all_of_singleton.
  by rewrite class_list_push_segment, app_assoc.
- simpl.
  unfold current_is_last in Hw; rewrite Hc in Hw. rewrite Hw; simpl.
  rewrite all_of_singleton, class_list_push_segment.
  by destruct c.
Qed.

(** ** The branches of the loop body *)

Lemma processLine_linear (it : Interp) (line : string) :
  cmd_of line = "G0" \/ cmd_of line = "G1" ->
  processLine it line =
  linear_move (args_of line) (set_tcode (active_tool line it) it).
Proof.
  intros H. unfold processLine, dispatch.
  by destruct H as [-> | ->].
Qed.

Lemma processLine_arc (it : Interp) (line : string) :
  cmd_of line = "G2" \/ cmd_of line = "G3" ->
  processLine it line = set_tcode (active_tool line it) it.
Proof.
  intros H. unfold processLine, dispatch.
  by destruct H as [-> | ->].
Qed.

Lemma processLine_unrecognised (it : Interp) (line : string) :
  recognised (cmd_of line) = false ->
  processLine it line = set_tcode (active_tool line it) it.
Proof.
  unfold recognised, processLine, dispatch. intros H.
  repeat (apply orb_false_elim in H as [H ?]).
  repeat match goal with
         | E : String.eqb _ _ = false |- _ => rewrite E; clear E
         end.
  done.
Qed.

(** ** The block that detects a layer change *)

(** The three ways through the block: a new layer, the flag alone, nothing. *)
Ltac detect_layer_cases :=
  unfold detect_layer;
  destruct (ngt _ _); [destruct (layer_changes _ _)|].

Lemma detect_layer_all_of (c : Class) (line : State.t) (it : Interp) :
  all_of c (layers (detect_layer line it)) = all_of c (layers it).
Proof.
  unfold detect_layer.
  destruct (ngt _ _); [|done].
  destruct (layer_changes _ _); [|done].
  simpl. rewrite all_of_app, all_of_singleton.
  destruct c; apply app_nil_r.
Qed.

Lemma detect_layer_flag (line : State.t) (it : Interp) :
  truthy (State.extruding (state (detect_layer line it))) =
  ngt (extrusion_delta (state it) line) (num_of_Z 0)
  || truthy (State.extruding (state it)).
Proof.
  unfold detect_layer.
  destruct (ngt _ _) eqn:Hd; [|done].
  by destruct (layer_changes _ _).
Qed.

Lemma detect_layer_segment (line p2 : State.t) (it : Interp) :
  segment (state (detect_layer line it)) p2 = segment (state it) p2.
Proof. by detect_layer_cases. Qed.

Lemma detect_layer_tcode (line : State.t) (it : Interp) :
  tcode (detect_layer line it) = tcode it.
Proof. by detect_layer_cases. Qed.

Lemma detect_layer_z (line : State.t) (it : Interp) :
  State.z (state (detect_layer line it)) = State.z (state it).
Proof. by detect_layer_cases. Qed.

Lemma detect_layer_idle (line : State.t) (it : Interp) :
  ngt (extrusion_delta (state it) line) (num_of_Z 0) = false ->
  detect_layer line it = it.
Proof. unfold detect_layer. by intros ->. Qed.

(** ** The G0/G1 branch *)

Lemma all_of_linear_move (c : Class) (args : gmap string num)
      (it : Interp) :
  current_is_last it ->
  let tgt := target (state it) args (tcode it) in
  let extr := ngt (extrusion_delta (state it) tgt) (num_of_Z 0)
              || truthy (State.extruding (state it)) in
  all_of c (layers (linear_move args it)) =
  all_of c (layers it) ++
  (if decide (c = classify extr (tcode it))
   then segment (state it) tgt else []).
Proof.
  intros Hw tgt extr. unfold linear_move. fold tgt. simpl.
  rewrite all_of_addSegment by by apply current_is_last_detect_layer.
  by rewrite detect_layer_all_of, detect_layer_flag, detect_layer_segment,
    detect_layer_tcode.
Qed.

Lemma state_linear_move (args : gmap string num) (it : Interp) :
  state (linear_move args it) = target (state it) args (tcode it).
Proof. done. Qed.

Lemma current_is_last_processLine (it : Interp) (line : string) :
  current_is_last it -> current_is_last (processLine it line).
Proof.
  intros Hw. unfold processLine, dispatch.
  set (it1 := set_tcode _ it).
  assert (current_is_last it1) as Hw1 by done.
  repeat case_match; try done.
  unfold linear_move.
  apply current_is_last_set_state, current_is_last_addSegment.
  by apply current_is_last_detect_layer.
Qed.

Lemma current_is_last_run (lines : list string) (it : Interp) :
  current_is_last it -> current_is_last (run it lines).
Proof.
  revert it. induction lines as [|l ls IH]; intros it Hw; [done|].
  simpl. by apply IH, current_is_last_processLine.
Qed.

(** ** The [z] of the layers *)

(** The [z] values of the layers, in the order of [layers]. *)
Lemma zs_alter_push_segment (extr : bool) (tc : nat) (vs : list num)
      (c : nat) (ls : list Layer.t) :
  Layer.z <$> alter (push_segment extr tc vs) c ls = Layer.z <$> ls.
Proof.
  revert c. induction ls as [|l ls IH]; intros c; [by destruct c|].
  destruct c as [|c]; simpl.
  - by rewrite push_segment_z.
  - f_equal. apply IH.
Qed.

Lemma zs_addSegment_current (p1 p2 : State.t) (tc c : nat) (it : Interp) :
  currentLayer it = Some c ->
  Layer.z <$> layers (addSegment p1 p2 tc it) = Layer.z <$> layers it /\
  currentLayer (addSegment p1 p2 tc it) = Some c.
Proof.
  intros Hc. unfold addSegment. rewrite Hc; simpl. rewrite Hc; simpl.
  split; [apply zs_alter_push_segment | done].
Qed.

Lemma zs_addSegment_none (p1 p2 : State.t) (tc : nat) (it : Interp) :
  currentLayer it = None ->
  Layer.z <$> layers (addSegment p1 p2 tc it) =
  (Layer.z <$> layers it) ++ [State.z p1] /\
  currentLayer (addSegment p1 p2 tc it) = Some (length (layers it)).
Proof.
  intros Hc. unfold addSegment. rewrite Hc; simpl.
  split; [|done].
  by rewrite zs_alter_push_segment, fmap_app.
Qed.

Lemma zs_addSegment_prefix (p1 p2 : State.t) (tc : nat) (it : Interp) :
  (Layer.z <$> layers it) `prefix_of`
  (Layer.z <$> layers (addSegment p1 p2 tc it)).
Proof.
  destruct (currentLayer it) as [c|] eqn:Hc.
  - by rewrite (proj1 (zs_addSegment_current p1 p2 tc c it Hc)).
  - rewrite (proj1 (zs_addSegment_none p1 p2 tc it Hc)).
    by apply prefix_app_r.
Qed.

Lemma zs_detect_layer_prefix (line : State.t) (it : Interp) :
  (Layer.z <$> layers it) `prefix_of`
  (Layer.z <$> layers (detect_layer line it)).
Proof.
  unfold detect_layer.
  destruct (ngt _ _); [|done].
  destruct (layer_changes _ _); [|done].
  simpl. rewrite fmap_app. by apply prefix_app_r.
Qed.

Lemma zs_processLine_prefix (it : Interp) (line : string) :
  (Layer.z <$> layers it) `prefix_of`
  (Layer.z <$> layers (processLine it line)).
Proof.
  unfold processLine, dispatch.
  change (layers it) with (layers (set_tcode (tool_markers line (tcode it)) it)).
  generalize (set_tcode (tool_markers line (tcode it)) it) as it1.
  intros it1. repeat case_match; try done.
  unfold linear_move; simpl.
  etrans; [apply zs_detect_layer_prefix | apply zs_addSegment_prefix].
Qed.

Lemma zs_run_prefix (lines : list string) (it : Interp) :
  (Layer.z <$> layers it) `prefix_of` (Layer.z <$> layers (run it lines)).
Proof.
  revert it. induction lines as [|l ls IH]; intros it; [done|].
  simpl. etrans; [apply zs_processLine_prefix | apply IH].
Qed.

(** C3 (second sentence), as a lemma of its own: whatever lines follow, the
    layer at an index keeps the [z] it has. *)
Lemma layer_z_fixed (lines : list string) (it : Interp) (i : nat)
      (l : Layer.t) :
  layers it !! i = Some l ->
  Layer.z <$> layers (run it lines) !! i = Some (Layer.z l).
Proof.
  intros Hl. rewrite <- list_lookup_fmap.
  eapply prefix_lookup_Some; [|apply zs_run_prefix].
  by rewrite list_lookup_fmap, Hl.
Qed.

(** What the block does when the delta is positive. *)
Lemma detect_layer_same_z (line : State.t) (it : Interp) (c : nat)
      (l : Layer.t) :
  ngt (extrusion_delta (state it) line) (num_of_Z 0) = true ->
  currentLayer it = Some c -> layers it !! c = Some l ->
  nneq (State.z line) (Layer.z l) = false ->
  layers (detect_layer line it) = layers it /\
  currentLayer (detect_layer line it) = Some c.
Proof.
  intros Hd Hc Hl Hz. unfold detect_layer, layer_changes. rewrite Hd; simpl.
  by rewrite Hc, Hl, Hz.
Qed.

Lemma detect_layer_new_z (line : State.t) (it : Interp) :
  ngt (extrusion_delta (state it) line) (num_of_Z 0) = true ->
  (currentLayer it = None \/
   exists c l, currentLayer it = Some c /\ layers it !! c = Some l /\
               nneq (State.z line) (Layer.z l) = true) ->
  layers (detect_layer line it) =
  layers it ++ [Layer.mk [] [] [] (State.z line)] /\
  currentLayer (detect_layer line it) = Some (length (layers it)).
Proof.
  intros Hd H. unfold detect_layer, layer_changes. rewrite Hd; simpl.
  destruct H as [-> | (c & l & -> & -> & ->)]; done.
Qed.

(** ** The extruding flag between lines *)

Lemma flag_clear_processLine (it : Interp) (line : string) :
  truthy (State.extruding (state it)) = false ->
  truthy (State.extruding (state (processLine it line))) = false.
Proof.
  intros Hf. unfold processLine, dispatch.
  destruct (_ || _).
  { unfold linear_move, target; simpl. by destruct (_ =? _)%nat. }
  destruct (_ || _); [done|].
  repeat (destruct (String.eqb _ _); [done|]).
  done.
Qed.

Lemma flag_clear_run (lines : list string) (it : Interp) :
  truthy (State.extruding (state it)) = false ->
  truthy (State.extruding (state (run it lines))) = false.
Proof.
  revert it. induction lines as [|l ls IH]; intros it Hf; [done|].
  simpl. by apply IH, flag_clear_processLine.
Qed.

(** ** The returned group *)

Lemma push_each_app (src acc : list num) : push_each src acc = acc ++ src.
Proof.
  unfold push_each. revert acc.
  induction src as [|v src IH]; intros acc; simpl.
  - by rewrite app_nil_r.
  - by rewrite IH, <- app_assoc.
Qed.

Lemma flatten_layers_from (ls : list Layer.t) (a b c : list num) :
  foldl (fun '(vertex, pathVertex, supportVertex) layer =>
           (push_each (Layer.vertex layer) vertex,
            push_each (Layer.pathVertex layer) pathVertex,
            push_each (Layer.supportVertex layer) supportVertex))
        (a, b, c) ls =
  (a ++ concat (map Layer.vertex ls),
   b ++ concat (map Layer.pathVertex ls),
   c ++ concat (map Layer.supportVertex ls)).
Proof.
  revert a b c. induction ls as [|l ls IH]; intros a b c; simpl.
  - by rewrite !app_nil_r.
  - by rewrite IH, !push_each_app, <- !app_assoc.
Qed.

Lemma flatten_layers_concat (ls : list Layer.t) :
  flatten_layers ls =
  (concat (map Layer.vertex ls), concat (map Layer.pathVertex ls),
   concat (map Layer.supportVertex ls)).
Proof. unfold flatten_layers. by rewrite flatten_layers_from. Qed.

Lemma positions_of_addObject (m m' : Material) (vs : list num) (i : nat)
      (object : list LineSegments) :
  positions_of m (addObject vs m' i object) =
  positions_of m object ++ (if decide (m' = m) then [vs] else []).
Proof.
  unfold positions_of, addObject.
  rewrite filter_app, map_app. f_equal.
  rewrite filter_cons, filter_nil. simpl.
  by destruct (decide (m' = m)).
Qed.

Lemma positions_of_split_objects (m : Material) (ls : list Layer.t) (i : nat)
      (object : list LineSegments) :
  positions_of m (split_objects ls i object) =
  positions_of m object ++ map (material_list m) ls.
Proof.
  revert i object. induction ls as [|l ls IH]; intros i object; simpl.
  - by rewrite app_nil_r.
  - rewrite IH, !positions_of_addObject.
    destruct m; simpl; by rewrite <- ?app_assoc, ?app_nil_r.
Qed.

(** ** The tool index *)

Lemma tcode_addSegment (p1 p2 : State.t) (tc : nat) (it : Interp) :
  tcode (addSegment p1 p2 tc it) = tcode it.
Proof.
  unfold addSegment.
  destruct (currentLayer it) eqn:Hc; simpl; by rewrite ?Hc.
Qed.

Lemma tcode_processLine (it : Interp) (line : string) :
  tcode (processLine it line) = tool_markers line (tcode it).
Proof.
  unfold processLine, dispatch.
  destruct (_ || _).
  { unfold linear_move; simpl.
    by rewrite tcode_addSegment, detect_layer_tcode. }
  destruct (_ || _); [done|].
  repeat (destruct (String.eqb _ _); [done|]).
  done.
Qed.

(** After a run the tool index is the one the markers of the lines select,
    starting from the index the run was given. *)
Lemma tcode_run (lines : list string) (it : Interp) :
  tcode (run it lines) =
  foldl (fun tc line => tool_markers line tc) (tcode it) lines.
Proof.
  unfold run. revert it. induction lines as [|l ls IH]; intros it; [done|].
  simpl. by rewrite IH, tcode_processLine.
Qed.

(** * Properties of the interpreter *)

(** C2. For every G0/G1 command the segment from the previous position to
    the target position is appended to exactly one classification: the one
    [classify] gives for the extruding flag (set by a positive delta, or
    still set in [state]) and the active tool: flag and tool 1 extruded, flag
    and tool 0 support, anything else travel.  The coordinates of every
    other classification are unchanged. *)
Theorem C2_segment_classification (it : Interp) (line : string) (c : Class) :
  current_is_last it ->
  cmd_of line = "G0" \/ cmd_of line = "G1" ->
  let tool := active_tool line it in
  let tgt := target (state it) (args_of line) tool in
  let extr := ngt (extrusion_delta (state it) tgt) (num_of_Z 0)
              || truthy (State.extruding (state it)) in
  all_of c (layers (processLine it line)) =
  all_of c (layers it) ++
  (if decide (c = classify extr tool) then segment (state it) tgt else []).
Proof.
  intros Hw Hcmd tool tgt extr.
  rewrite processLine_linear by done.
  by rewrite all_of_linear_move.
Qed.

(** C3. For every G0/G1 command with a positive extrusion delta: when a
    current layer exists and the target Z equals its Z, no layer is started;
    when no layer exists or the target Z differs from the current layer's Z,
    exactly one layer is started, it becomes the current one and its Z is the
    target Z.  The Z of a layer never changes, whatever lines follow. *)
Theorem C3_layer_start (it : Interp) (line : string) :
  cmd_of line = "G0" \/ cmd_of line = "G1" ->
  let tgt := target (state it) (args_of line) (active_tool line it) in
  ngt (extrusion_delta (state it) tgt) (num_of_Z 0) = true ->
  let it' := processLine it line in
  (forall cur l,
      currentLayer it = Some cur -> layers it !! cur = Some l ->
      nneq (State.z tgt) (Layer.z l) = false ->
      length (layers it') = length (layers it) /\
      currentLayer it' = Some cur)
  /\ (currentLayer it = None \/
      (exists cur l,
          currentLayer it = Some cur /\ layers it !! cur = Some l /\
          nneq (State.z tgt) (Layer.z l) = true) ->
      length (layers it') = S (length (layers it)) /\
      currentLayer it' = Some (length (layers it)) /\
      Layer.z <$> layers it' !! length (layers it) = Some (State.z tgt))
  /\ (forall more i l,
         layers it !! i = Some l ->
         Layer.z <$> layers (run it more) !! i = Some (Layer.z l)).
Proof.
  intros Hcmd tgt Hd it'.
  assert (it' = linear_move (args_of line)
                            (set_tcode (active_tool line it) it)) as Hit'
    by by apply processLine_linear.
  set (it0 := set_tcode (active_tool line it) it) in *.
  assert (ngt (extrusion_delta (state it0) tgt) (num_of_Z 0) = true) as Hd0
    by done.
  split; [|split].
  - intros cur l Hc Hl Hz.
    destruct (detect_layer_same_z tgt it0 cur l Hd0 Hc Hl Hz) as [Hls Hcur].
    rewrite Hit'. unfold linear_move; simpl. fold it0 tgt.
    destruct (zs_addSegment_current (state (detect_layer tgt it0)) tgt
                (tcode (detect_layer tgt it0)) cur _ Hcur) as [Hzs Hc'].
    split; [|done].
    apply (f_equal length) in Hzs. rewrite !length_fmap in Hzs.
    by rewrite Hzs, Hls.
  - intros Hnew.
    destruct (detect_layer_new_z tgt it0 Hd0 Hnew) as [Hls Hcur].
    rewrite Hit'. unfold linear_move; simpl. fold it0 tgt.
    destruct (zs_addSegment_current (state (detect_layer tgt it0)) tgt
                (tcode (detect_layer tgt it0)) _ _ Hcur) as [Hzs Hc'].
    rewrite Hls in Hzs. simpl in Hzs.
    split; [|split; [done|]].
    + apply (f_equal length) in Hzs.
      rewrite !length_fmap, length_app in Hzs. simpl in Hzs.
      change (layers it0) with (layers it) in Hzs. lia.
    + rewrite <- list_lookup_fmap, Hzs, fmap_app.
      change (layers it0) with (layers it).
      rewrite lookup_app_r by by rewrite length_fmap.
      rewrite length_fmap.
      by replace (length (layers it) - length (layers it))%nat with 0%nat
        by lia.
  - intros more i l Hl. by apply layer_z_fixed.
Qed.

(** C10. A G0/G1 command met while no layer exists: when its extrusion delta
    is not positive, the layer made on the spot by [addSegment] has the Z of
    the start point of the segment, the previous [state.z]; when the delta
    is positive, the layer made has the Z of the target. *)
Theorem C10_first_layer_z (it : Interp) (line : string) :
  current_is_last it ->
  currentLayer it = None ->
  cmd_of line = "G0" \/ cmd_of line = "G1" ->
  let tgt := target (state it) (args_of line) (active_tool line it) in
  let it' := processLine it line in
  (ngt (extrusion_delta (state it) tgt) (num_of_Z 0) = false ->
   Layer.z <$> layers it' = [State.z (state it)])
  /\ (ngt (extrusion_delta (state it) tgt) (num_of_Z 0) = true ->
      Layer.z <$> layers it' = [State.z tgt]).
Proof.
  intros Hw Hnone Hcmd tgt it'.
  assert (layers it = []) as Hnil
    by (unfold current_is_last in Hw; by rewrite Hnone in Hw).
  assert (it' = linear_move (args_of line)
                            (set_tcode (active_tool line it) it)) as Hit'
    by by apply processLine_linear.
  set (it0 := set_tcode (active_tool line it) it) in *.
  split; intros Hd.
  - rewrite Hit'. unfold linear_move; simpl. fold it0 tgt.
    rewrite (detect_layer_idle tgt it0) by done.
    destruct (zs_addSegment_none (state it0) tgt (tcode it0) it0 Hnone)
      as [Hzs _].
    rewrite Hzs. change (layers it0) with (layers it). by rewrite Hnil.
  - destruct (detect_layer_new_z tgt it0 Hd (or_introl Hnone)) as [Hls Hcur].
    rewrite Hit'. unfold linear_move; simpl. fold it0 tgt.
    destruct (zs_addSegment_current (state (detect_layer tgt it0)) tgt
                (tcode (detect_layer tgt it0)) _ _ Hcur) as [Hzs _].
    rewrite Hzs, Hls. change (layers it0) with (layers it).
    by rewrite Hnil.
Qed.


(** C5 (amended). A line whose command code is G2 or G3 pushes no
    coordinate, creates no layer and leaves [currentLayer] and every property
    of [state] as they are.  The active tool index is the one the markers of
    the line select: 0 when the line contains T0, else 1 when it contains T1,
    else unchanged; so a line without marker changes nothing at all. *)
Theorem C5_arc_changes_only_tool (it : Interp) (line : string) :
  cmd_of line = "G2" \/ cmd_of line = "G3" ->
  let it' := processLine it line in
  state it' = state it /\
  layers it' = layers it /\
  currentLayer it' = currentLayer it /\
  tcode it' = (if includes "T0" line then 0%nat
               else if includes "T1" line then 1%nat else tcode it) /\
  (includes "T0" line = false -> includes "T1" line = false -> it' = it).
Proof.
  intros Hcmd it'. subst it'. rewrite processLine_arc by done.
  unfold active_tool, tool_markers. repeat split.
  intros -> ->. by destruct it.
Qed.

(** C7 (amended). A line whose command code is none of G0, G1, G2, G3, G90,
    G91 and G92 is processed without error ([processLine] is total), pushes no
    coordinate, creates no layer and leaves every property of [state] as it
    is.  The active tool index is the one the markers of the line select: 0
    when the line contains T0, else 1 when it contains T1, else unchanged. *)
Theorem C7_unrecognised_changes_only_tool (it : Interp) (line : string) :
  recognised (cmd_of line) = false ->
  let it' := processLine it line in
  state it' = state it /\
  layers it' = layers it /\
  currentLayer it' = currentLayer it /\
  tcode it' = (if includes "T0" line then 0%nat
               else if includes "T1" line then 1%nat else tcode it) /\
  (includes "T0" line = false -> includes "T1" line = false -> it' = it).
Proof.
  intros Hcmd it'. subst it'. rewrite processLine_unrecognised by done.
  unfold active_tool, tool_markers. repeat split.
  intros -> ->. by destruct it.
Qed.

(** C8 (amended). The extruding flag is false when a parse starts and is not
    truthy at the start of any line: the state that replaces [state] after a
    G0/G1 command has no such property.  So every G0/G1 command of a parse is
    classified by its own extrusion delta: extruded (tool 1) or support
    (tool 0) when the delta is positive, travel when it is not. *)
Theorem C8_flag_lasts_one_move (tc : nat) (before : list string)
        (line : string) (c : Class) :
  cmd_of line = "G0" \/ cmd_of line = "G1" ->
  let it := run (interp_init tc) before in
  let tool := active_tool line it in
  let tgt := target (state it) (args_of line) tool in
  let extr := ngt (extrusion_delta (state it) tgt) (num_of_Z 0) in
  State.extruding (state (interp_init tc)) = Some false /\
  truthy (State.extruding (state it)) = false /\
  State.extruding (state (processLine it line)) = None /\
  all_of c (layers (processLine it line)) =
  all_of c (layers it) ++
  (if decide (c = classify extr tool) then segment (state it) tgt else []).
Proof.
  intros Hcmd it tool tgt extr.
  assert (truthy (State.extruding (state it)) = false) as Hf
    by by apply flag_clear_run.
  repeat split; [done| |].
  - rewrite processLine_linear by done.
    rewrite state_linear_move. unfold target. by destruct (_ =? _)%nat.
  - rewrite processLine_linear by done.
    rewrite all_of_linear_move
      by by apply current_is_last_set_tcode, current_is_last_run.
    simpl. fold it tool tgt. rewrite Hf.
    by rewrite orb_false_r.
Qed.

(** C6. The group built with [splitLayer] false has three children, one per
    material, and the positions of each are the concatenation, in the order
    of the children, of the positions that the children of that material
    have in the group built with [splitLayer] true, which are the arrays of
    the layers in layer order.  [splitLayer] is true in a loader as
    constructed. *)
Theorem C6_flattened_is_concatenation (tc : nat) (data : string) :
  let split_out := fst (parse constructor tc data) in
  let flat_out := fst (parse (mkLoader false) tc data) in
  let n := length (parse_layers tc data) in
  flat_out =
  [mkLineSegments (concat (positions_of extrudingMaterial split_out))
                  extrudingMaterial n;
   mkLineSegments (concat (positions_of pathMaterial split_out))
                  pathMaterial n;
   mkLineSegments (concat (positions_of supportMaterial split_out))
                  supportMaterial n]
  /\ (forall m, positions_of m split_out =
                map (material_list m) (parse_layers tc data))
  /\ splitLayer constructor = true.
Proof.
  intros split_out flat_out n.
  assert (forall m, positions_of m split_out =
                    map (material_list m) (parse_layers tc data))
    as Hsplit.
  { intros m. subst split_out. unfold parse, build_object; simpl.
    by rewrite positions_of_split_objects. }
  split; [|done].
  subst flat_out. unfold parse, build_object; simpl.
  rewrite flatten_layers_concat, !Hsplit. reflexivity.
Qed.

End Interpreter.

(** ** The delta of the G0/G1 branch *)

Lemma extrusion_delta_absolute (st line : State.t) :
  truthy (State.relative st) = false ->
  extrusion_delta st line = nsub (State.e line) (State.e st).
Proof. unfold extrusion_delta, delta. by intros ->. Qed.

(** In relative mode [delta] hands back its second argument, and that is
    [line.e], which [absolute] has already added to [state.e]. *)
Lemma extrusion_delta_relative (st : State.t) (args : gmap string num)
      (tc : nat) :
  truthy (State.relative st) = true ->
  extrusion_delta st (target st args tc) =
  match args !! "e" with
  | Some v => nadd (State.e st) v
  | None => State.e st
  end.
Proof.
  unfold extrusion_delta, delta, target. intros Hr. rewrite Hr.
  destruct (tc =? 0)%nat; simpl; unfold coord, absolute; rewrite Hr;
    by destruct (args !! "e").
Qed.

(** C1. The code at the failing input: after [G1 E2] and [G91] positioning
    is relative and [state.e] is 2.  For [G1 Z1], which has no E parameter,
    the delta is 2 and not 0, so the move starts a layer at Z 1 and is
    recorded as an extruding (support) segment.  For [G1 X5 E-1] the delta is
    2 + (-1) = 1 and not the raw -1, so the retraction is recorded as an
    extruding segment too. *)
Theorem C1_relative_delta_is_target_e :
  let it := run parseFloat_dec (interp_init 0) ["G1 E2"; "G91"] in
  let delta_of line :=
    extrusion_delta (state it)
      (target (state it) (args_of parseFloat_dec line) (active_tool line it)) in
  truthy (State.relative (state it)) = true /\
  State.e (state it) = num_of_Z 2 /\
  args_of parseFloat_dec "G1 Z1" !! "e" = None /\
  delta_of "G1 Z1" = num_of_Z 2 /\
  args_of parseFloat_dec "G1 X5 E-1" !! "e" = Some (num_of_Z (-1)) /\
  delta_of "G1 X5 E-1" = num_of_Z 1 /\
  parse_layers parseFloat_dec 0
    ("G1 E2" +:+ newline +:+ "G91" +:+ newline +:+ "G1 Z1") =
  [Layer.mk [] []
     [num_of_Z 0; num_of_Z 0; num_of_Z 0; num_of_Z 0; num_of_Z 0; num_of_Z 0]
     (num_of_Z 0);
   Layer.mk [] []
     [num_of_Z 0; num_of_Z 0; num_of_Z 0; num_of_Z 0; num_of_Z 0; num_of_Z 1]
     (num_of_Z 1)] /\
  all_of Travel
    (parse_layers parseFloat_dec 0
       ("G1 E2" +:+ newline +:+ "G91" +:+ newline +:+ "G1 X5 E-1")) = [].
Proof. vm_compute. repeat split. Qed.

(** C9. [tcode] is 0 when the module is loaded and [parse] starts from the
    [tcode] it is given, which is the one the previous call left: a text
    without marker leaves it as it is, and parsing the same text twice in a
    row gives two different groups.  The first call records the move as a
    support segment ending at X 10 and leaves tool 1 selected; the second
    records the same move as an extruded segment ending at X -12. *)
Theorem C9_parse_depends_on_tcode :
  let text := "G1 X10 E1" +:+ newline +:+ "T1" in
  let first := parse parseFloat_dec constructor tcode_init text in
  let second := parse parseFloat_dec constructor (snd first) text in
  tcode_init = 0%nat /\
  (forall tc, tcode (interp_init tc) = tc) /\
  (forall tc data,
      snd (parse parseFloat_dec constructor tc data) =
      foldl (fun t line => tool_markers line t) tc (lines_of data)) /\
  snd first = 1%nat /\
  fst first <> fst second /\
  fst first =
  [mkLineSegments [] extrudingMaterial 0;
   mkLineSegments [] pathMaterial 0;
   mkLineSegments [num_of_Z 0; num_of_Z 0; num_of_Z 0;
                   num_of_Z 10; num_of_Z 0; num_of_Z 0] supportMaterial 0] /\
  fst second =
  [mkLineSegments [num_of_Z 0; num_of_Z 0; num_of_Z 0;
                   num_of_Z (-12); num_of_Z 0; num_of_Z 0] extrudingMaterial 0;
   mkLineSegments [] pathMaterial 0;
   mkLineSegments [] supportMaterial 0].
Proof.
  intros text first second.
  assert (fst first =
          [mkLineSegments [] extrudingMaterial 0;
           mkLineSegments [] pathMaterial 0;
           mkLineSegments [num_of_Z 0; num_of_Z 0; num_of_Z 0;
                           num_of_Z 10; num_of_Z 0; num_of_Z 0]
                          supportMaterial 0]) as H1 by by vm_compute.
  assert (fst second =
          [mkLineSegments [num_of_Z 0; num_of_Z 0; num_of_Z 0;
                           num_of_Z (-12); num_of_Z 0; num_of_Z 0]
                          extrudingMaterial 0;
           mkLineSegments [] pathMaterial 0;
           mkLineSegments [] supportMaterial 0]) as H2 by by vm_compute.
  split; [done|]. split; [done|].
  split; [intros tc data; apply tcode_run|].
  split; [by vm_compute|]. split; [|done].
  rewrite H1, H2. discriminate.
Qed.

(** * Concrete runs *)

(** Two extruding moves with tool 0: one layer at Z 0 with two support
    segments. *)
Example run_two_support_segments :
  parse_layers parseFloat_dec 0
    ("G1 X10 E1" +:+ newline +:+ "G1 X20 E2" +:+ newline) =
  [Layer.mk [] []
     [num_of_Z 0; num_of_Z 0; num_of_Z 0; num_of_Z 10; num_of_Z 0; num_of_Z 0;
      num_of_Z 10; num_of_Z 0; num_of_Z 0; num_of_Z 20; num_of_Z 0; num_of_Z 0]
     (num_of_Z 0)].
Proof. by vm_compute. Qed.

(** Tool 1 selected before the move: the segment ends at X 10 - 22 and is
    extruded. *)
Example run_tool_one :
  parse_layers parseFloat_dec 0
    ("T1" +:+ newline +:+ "G1 X10 E1" +:+ newline) =
  [Layer.mk
     [num_of_Z 0; num_of_Z 0; num_of_Z 0; num_of_Z (-12); num_of_Z 0; num_of_Z 0]
     [] [] (num_of_Z 0)].
Proof. by vm_compute. Qed.

(** An absolute move to X 5, then a relative move by 5: two travel segments,
    the second ending at X 10. *)
Example run_absolute_then_relative :
  parse_layers parseFloat_dec 0
    ("G90" +:+ newline +:+ "G1 X5" +:+ newline +:+
     "G91" +:+ newline +:+ "G1 X5" +:+ newline) =
  [Layer.mk []
     [num_of_Z 0; num_of_Z 0; num_of_Z 0; num_of_Z 5; num_of_Z 0; num_of_Z 0;
      num_of_Z 5; num_of_Z 0; num_of_Z 0; num_of_Z 10; num_of_Z 0; num_of_Z 0]
     [] (num_of_Z 0)].
Proof. by vm_compute. Qed.

(** A comment is dropped before the line is split into tokens. *)
Example run_comment :
  lines_of ("G1 X1 ;T1" +:+ newline +:+ "G92 E0") = ["G1 X1 "; "G92 E0"].
Proof. by vm_compute. Qed.

(** C5, as stated, fails on [G2 X1 T1]: the command code is G2 and the line
    switches the active tool from 0 to 1. *)
Lemma C5_counterexample :
  (cmd_of "G2 X1 T1" = "G2" \/ cmd_of "G2 X1 T1" = "G3") /\
  tcode (processLine parseFloat_dec (interp_init 0) "G2 X1 T1") <>
  tcode (interp_init 0).
Proof. split; [by left | by vm_compute]. Qed.

(** C7, as stated, fails on the line [T1]: its command code is none of the
    recognised ones and it switches the active tool from 0 to 1. *)
Lemma C7_counterexample :
  recognised (cmd_of "T1") = false /\
  tcode (processLine parseFloat_dec (interp_init 0) "T1") <>
  tcode (interp_init 0).
Proof. split; [done | by vm_compute]. Qed.

(** C8, as stated, fails on [G1 X1 E1] followed by [G1 X2]: the first move
    has a positive delta, and the second, whose delta is zero, is recorded as
    travel and not as support. *)
Lemma C8_counterexample :
  let it0 := interp_init 0 in
  let it1 := processLine parseFloat_dec it0 "G1 X1 E1" in
  let it2 := processLine parseFloat_dec it1 "G1 X2" in
  ngt (extrusion_delta (state it0)
         (target (state it0) (args_of parseFloat_dec "G1 X1 E1") 0))
      (num_of_Z 0) = true /\
  cmd_of "G1 X2" = "G1" /\
  tcode it1 = 0%nat /\
  all_of Support (layers it2) = all_of Support (layers it1) /\
  all_of Extruded (layers it2) = all_of Extruded (layers it1) /\
  all_of Travel (layers it1) = [] /\
  all_of Travel (layers it2) =
  [num_of_Z 1; num_of_Z 0; num_of_Z 0; num_of_Z 2; num_of_Z 0; num_of_Z 0].
Proof. by vm_compute. Qed.

Lemma C2_witness :
  current_is_last (interp_init 0) /\
  (cmd_of "G1 X10 E1" = "G0" \/ cmd_of "G1 X10 E1" = "G1") /\
  all_of Support
    (layers (processLine parseFloat_dec (interp_init 0) "G1 X10 E1")) =
  [num_of_Z 0; num_of_Z 0; num_of_Z 0; num_of_Z 10; num_of_Z 0; num_of_Z 0].
Proof.
  split; [reflexivity|]. split; [right; reflexivity|].
  pose proof (C2_segment_classification parseFloat_dec (interp_init 0)
                "G1 X10 E1" Support (current_is_last_init 0)
                (or_intror eq_refl)) as H.
  rewrite H. vm_compute. reflexivity.
Defined.

Lemma C3_witness :
  (cmd_of "G1 Z1 E1" = "G0" \/ cmd_of "G1 Z1 E1" = "G1") /\
  ngt (extrusion_delta (state (interp_init 0))
         (target (state (interp_init 0)) (args_of parseFloat_dec "G1 Z1 E1")
                 (active_tool "G1 Z1 E1" (interp_init 0))))
      (num_of_Z 0) = true /\
  length (layers (processLine parseFloat_dec (interp_init 0) "G1 Z1 E1")) =
  1%nat /\
  Layer.z <$>
    layers (processLine parseFloat_dec (interp_init 0) "G1 Z1 E1") !! 0%nat =
  Some (num_of_Z 1).
Proof.
  split; [right; reflexivity|].
  split; [vm_compute; reflexivity|].
  destruct (C3_layer_start parseFloat_dec (interp_init 0) "G1 Z1 E1"
              (or_intror eq_refl))
    as (_ & Hnew & _); [vm_compute; reflexivity|].
  destruct (Hnew (or_introl eq_refl)) as (Hlen & _ & Hz).
  split; [exact Hlen | exact Hz].
Defined.


Lemma C5_witness :
  (cmd_of "G3 X1 Y1" = "G2" \/ cmd_of "G3 X1 Y1" = "G3") /\
  state (processLine parseFloat_dec (interp_init 1) "G3 X1 Y1") =
  state (interp_init 1) /\
  tcode (processLine parseFloat_dec (interp_init 1) "G3 X1 Y1") = 1%nat.
Proof.
  split; [right; reflexivity|].
  destruct (C5_arc_changes_only_tool parseFloat_dec (interp_init 1)
              "G3 X1 Y1" (or_intror eq_refl)) as (Hs & _ & _ & Ht & _).
  split; [exact Hs | exact Ht].
Defined.

Lemma C7_witness :
  recognised (cmd_of "M104 S200") = false /\
  processLine parseFloat_dec (interp_init 1) "M104 S200" = interp_init 1.
Proof.
  split; [reflexivity|].
  destruct (C7_unrecognised_changes_only_tool parseFloat_dec (interp_init 1)
              "M104 S200" eq_refl) as (_ & _ & _ & _ & H).
  apply H; reflexivity.
Defined.

Lemma C8_witness :
  (cmd_of "G1 X2" = "G0" \/ cmd_of "G1 X2" = "G1") /\
  all_of Travel
    (layers (processLine parseFloat_dec
               (run parseFloat_dec (interp_init 0) ["G1 X1 E1"]) "G1 X2")) =
  [num_of_Z 1; num_of_Z 0; num_of_Z 0; num_of_Z 2; num_of_Z 0; num_of_Z 0].
Proof.
  split; [right; reflexivity|].
  destruct (C8_flag_lasts_one_move parseFloat_dec 0 ["G1 X1 E1"] "G1 X2"
              Travel (or_intror eq_refl)) as (_ & _ & _ & H).
  rewrite H. vm_compute. reflexivity.
Defined.

Lemma C10_witness :
  current_is_last (interp_init 0) /\
  currentLayer (interp_init 0) = None /\
  (cmd_of "G1 Z5" = "G0" \/ cmd_of "G1 Z5" = "G1") /\
  ngt (extrusion_delta (state (interp_init 0))
         (target (state (interp_init 0)) (args_of parseFloat_dec "G1 Z5")
                 (active_tool "G1 Z5" (interp_init 0))))
      (num_of_Z 0) = false /\
  Layer.z <$> layers (processLine parseFloat_dec (interp_init 0) "G1 Z5") =
  [num_of_Z 0].
Proof.
  split; [reflexivity|]. split; [reflexivity|].
  split; [right; reflexivity|]. split; [vm_compute; reflexivity|].
  destruct (C10_first_layer_z parseFloat_dec (interp_init 0) "G1 Z5"
              (current_is_last_init 0) eq_refl (or_intror eq_refl))
    as [H _].
  apply H. vm_compute. reflexivity.
Defined.

(** * Further properties of the loop *)

(** ** Lines other than G0/G1 *)

Lemma processLine_not_linear (pf : string -> num) (it : Interp)
      (line : string) :
  is_linear line = false ->
  layers (processLine pf it line) = layers it /\
  currentLayer (processLine pf it line) = currentLayer it.
Proof.
  unfold is_linear, processLine, dispatch. intros ->.
  destruct (_ || _); [done|].
  repeat (destruct (String.eqb _ _); [done|]).
  done.
Qed.

Lemma run_not_linear (pf : string -> num) (lines : list string)
      (it : Interp) :
  Forall (fun line => is_linear line = false) lines ->
  layers (run pf it lines) = layers it /\
  currentLayer (run pf it lines) = currentLayer it.
Proof.
  unfold run. revert it.
  induction lines as [|l ls IH]; intros it Hall; [done|].
  inversion Hall as [|? ? Hl Hls]; subst. simpl.
  destruct (IH (processLine pf it l) Hls) as [-> ->].
  by apply processLine_not_linear.
Qed.


(** ** What a G0/G1 command does to [layers] *)

Lemma linear_move_shape (args : gmap string num) (it : Interp) :
  current_is_last it ->
  let tgt := target (state it) args (tcode it) in
  let positive := ngt (extrusion_delta (state it) tgt) (num_of_Z 0) in
  let extr := positive || truthy (State.extruding (state it)) in
  exists init l,
    layers (linear_move args it) =
    init ++ [push_segment extr (tcode it) (segment (state it) tgt) l] /\
    (layers it = init ++ [l]
     \/ (layers it = init /\ positive = true /\
         l = Layer.mk [] [] [] (State.z tgt) /\
         forall l0, last init = Some l0 ->
                    nneq (State.z tgt) (Layer.z l0) = true)
     \/ (layers it = [] /\ init = [] /\ positive = false /\
         l = Layer.mk [] [] [] (State.z (state it)))).
Proof.
  intros Hw tgt positive extr.
  unfold linear_move. fold tgt. cbn [layers set_state].
  unfold detect_layer. fold positive. subst extr.
  unfold current_is_last in Hw.
  destruct (currentLayer it) as [c|] eqn:Hc.
  - destruct (last_index_split _ _ Hw) as (init0 & l0 & Hls & Hlen).
    subst c.
    assert (layers it !! length init0 = Some l0) as Hl0
      by (rewrite Hls; by apply list_lookup_middle).
    destruct positive eqn:Hpos.
    + unfold layer_changes; simpl. rewrite Hc, Hl0.
      destruct (nneq (State.z tgt) (Layer.z l0)) eqn:Hz.
      * exists (init0 ++ [l0]), (Layer.mk [] [] [] (State.z tgt)).
        unfold addSegment; simpl. rewrite Hls, alter_last.
        split; [done|]. right; left. repeat split; try done.
        intros l1. rewrite last_snoc. by intros [= <-].
      * exists init0, l0.
        unfold addSegment; simpl. repeat (rewrite Hc; simpl).
        rewrite Hls, alter_last. split; [done | by left].
    + exists init0, l0.
      unfold addSegment. repeat (rewrite Hc; simpl).
      rewrite Hls, alter_last. split; [done | by left].
  - destruct positive eqn:Hpos.
    + exists [], (Layer.mk [] [] [] (State.z tgt)).
      unfold layer_changes, addSegment; simpl. repeat (rewrite Hc; simpl).
      rewrite Hw; simpl.
      split; [done|]. right; left. by repeat split.
    + exists [], (Layer.mk [] [] [] (State.z (state it))).
      unfold addSegment. repeat (rewrite Hc; simpl). rewrite Hw; simpl.
      split; [done|]. right; right. by repeat split.
Qed.
(** ** Properties of every layer, kept by the loop *)

Lemma layer_size_push_segment (extr : bool) (tc : nat) (p1 p2 : State.t)
      (l : Layer.t) :
  layer_size (push_segment extr tc (segment p1 p2) l) = (layer_size l + 6)%nat.
Proof.
  unfold push_segment, layer_size.
  destruct (extr && (tc =? 1)%nat), (extr && (tc =? 0)%nat); simpl;
    rewrite length_app; simpl; lia.
Qed.

(** A property of layers that a pushed segment establishes or keeps, and
    that the layers before have, holds of the layers after a G0/G1. *)
Lemma Forall_layers_linear_move (P : Layer.t -> Prop)
      (args : gmap string num) (it : Interp) :
  (forall extr tc p1 p2 l,
      P l \/ (exists z, l = Layer.mk [] [] [] z) ->
      P (push_segment extr tc (segment p1 p2) l)) ->
  current_is_last it ->
  Forall P (layers it) -> Forall P (layers (linear_move args it)).
Proof.
  intros Hpush Hw Hall.
  destruct (linear_move_shape args it Hw) as (init & l & -> & Hcase).
  destruct Hcase as [Hls | [(Hls & _ & -> & _) | (_ & -> & _ & ->)]].
  - rewrite Hls in Hall. apply Forall_app in Hall as [Hinit Hl].
    apply Forall_app. split; [done|].
    apply Forall_singleton, Hpush. left.
    by inversion Hl.
  - rewrite Hls in Hall. apply Forall_app. split; [done|].
    apply Forall_singleton, Hpush. right. by eexists.
  - apply Forall_singleton, Hpush. right. by eexists.
Qed.

Lemma Forall_layers_processLine (pf : string -> num) (P : Layer.t -> Prop)
      (it : Interp) (line : string) :
  (forall extr tc p1 p2 l,
      P l \/ (exists z, l = Layer.mk [] [] [] z) ->
      P (push_segment extr tc (segment p1 p2) l)) ->
  current_is_last it ->
  Forall P (layers it) -> Forall P (layers (processLine pf it line)).
Proof.
  intros Hpush Hw Hall.
  destruct (is_linear line) eqn:Hlin.
  - rewrite processLine_linear
      by (unfold is_linear in Hlin; apply orb_true_iff in Hlin;
          by rewrite !String.eqb_eq in Hlin).
    by apply Forall_layers_linear_move.
  - by rewrite (proj1 (processLine_not_linear pf it line Hlin)).
Qed.

Lemma Forall_layers_run (pf : string -> num) (P : Layer.t -> Prop)
      (lines : list string) (it : Interp) :
  (forall extr tc p1 p2 l,
      P l \/ (exists z, l = Layer.mk [] [] [] z) ->
      P (push_segment extr tc (segment p1 p2) l)) ->
  current_is_last it ->
  Forall P (layers it) -> Forall P (layers (run pf it lines)).
Proof.
  intros Hpush. unfold run. revert it.
  induction lines as [|l ls IH]; intros it Hw Hall; [done|].
  simpl. apply IH.
  - by apply current_is_last_processLine.
  - by apply Forall_layers_processLine.
Qed.

(** ** Counting coordinates *)

Lemma coordinates_snoc (ls : list Layer.t) (l : Layer.t) :
  coordinates (ls ++ [l]) = (coordinates ls + layer_size l)%nat.
Proof.
  unfold coordinates. rewrite sum_list_with_app. simpl. lia.
Qed.

Lemma coordinates_linear_move (args : gmap string num) (it : Interp) :
  current_is_last it ->
  coordinates (layers (linear_move args it)) =
  (coordinates (layers it) + 6)%nat.
Proof.
  intros Hw.
  destruct (linear_move_shape args it Hw) as (init & l & -> & Hcase).
  rewrite coordinates_snoc, layer_size_push_segment.
  destruct Hcase as [-> | [(-> & _ & -> & _) | (-> & -> & _ & ->)]].
  - rewrite coordinates_snoc. lia.
  - unfold layer_size; simpl. lia.
  - done.
Qed.

Lemma is_linear_cmd (line : string) :
  is_linear line = true -> cmd_of line = "G0" \/ cmd_of line = "G1".
Proof.
  unfold is_linear. intros H. apply orb_true_iff in H.
  by rewrite !String.eqb_eq in H.
Qed.

Lemma coordinates_run (pf : string -> num) (lines : list string)
      (it : Interp) :
  current_is_last it ->
  coordinates (layers (run pf it lines)) =
  (coordinates (layers it) + 6 * length (List.filter is_linear lines))%nat.
Proof.
  unfold run. revert it.
  induction lines as [|l ls IH]; intros it Hw; simpl; [lia|].
  rewrite IH by by apply current_is_last_processLine.
  destruct (is_linear l) eqn:Hlin; simpl.
  - rewrite processLine_linear by by apply is_linear_cmd.
    rewrite coordinates_linear_move by done. simpl. lia.
  - by rewrite (proj1 (processLine_not_linear pf it l Hlin)).
Qed.

(** ** The [z] of neighbouring layers *)

Lemma adjacent_differ_snoc (zs : list num) (z : num) :
  adjacent_differ (zs ++ [z]) =
  adjacent_differ zs &&
  match last zs with Some a => nneq z a | None => true end.
Proof.
  induction zs as [|a [|b zs] IH]; simpl; try done.
  - by rewrite andb_true_r.
  - simpl in IH. rewrite IH. by rewrite andb_assoc.
Qed.

Lemma adjacent_differ_linear_move (args : gmap string num) (it : Interp) :
  current_is_last it ->
  adjacent_differ (Layer.z <$> layers it) = true ->
  adjacent_differ (Layer.z <$> layers (linear_move args it)) = true.
Proof.
  intros Hw Hadj.
  destruct (linear_move_shape args it Hw) as (init & l & -> & Hcase).
  rewrite fmap_app; simpl. rewrite push_segment_z.
  destruct Hcase as [Hls | [(Hls & _ & -> & Hz) | (_ & -> & _ & ->)]].
  - rewrite Hls, fmap_app in Hadj. done.
  - rewrite Hls in Hadj. rewrite adjacent_differ_snoc, Hadj, fmap_last.
    simpl. destruct (last init) as [l0|]; simpl; [by apply Hz | done].
  - done.
Qed.

Lemma adjacent_differ_run (pf : string -> num) (lines : list string)
      (it : Interp) :
  current_is_last it ->
  adjacent_differ (Layer.z <$> layers it) = true ->
  adjacent_differ (Layer.z <$> layers (run pf it lines)) = true.
Proof.
  unfold run. revert it.
  induction lines as [|l ls IH]; intros it Hw Hadj; [done|].
  simpl. apply IH; [by apply current_is_last_processLine|].
  destruct (is_linear l) eqn:Hlin.
  - rewrite processLine_linear by by apply is_linear_cmd.
    by apply adjacent_differ_linear_move.
  - by rewrite (proj1 (processLine_not_linear pf it l Hlin)).
Qed.
(** ** The children made of the layers *)

Lemma split_objects_children (ls : list Layer.t) (i : nat)
      (object : list LineSegments) :
  split_objects ls i object =
  object ++ concat (imap (fun j => layer_children (i + j)) ls).
Proof.
  revert i object. induction ls as [|l ls IH]; intros i object; simpl.
  - by rewrite app_nil_r.
  - rewrite IH. unfold addObject, layer_children at 2.
    rewrite Nat.add_0_r, <- !app_assoc. simpl. do 5 f_equal.
    apply imap_ext. intros j x _. simpl. by rewrite Nat.add_succ_r.
Qed.

Lemma whole_segments_children (ls : list Layer.t) (i : nat) :
  Forall (fun l => forall c, (6 | length (class_list c l))) ls ->
  Forall (fun o => (6 | length (positions o)))
         (concat (imap (fun j => layer_children (i + j)) ls)).
Proof.
  intros Hall. revert i.
  induction Hall as [|l ls Hl _ IH]; intros i; [done|].
  rewrite imap_cons; simpl.
  repeat constructor; simpl;
    [apply (Hl Extruded) | apply (Hl Travel) | apply (Hl Support) |].
  rewrite (imap_ext _ (fun j => layer_children (S i + j)))
    by (intros; simpl; f_equal; lia).
  apply IH.
Qed.

(** X1. A G0/G1 line changes [layers] at its end only: either the segment
    is pushed on the last layer, or one new layer is appended and receives
    the segment.  A layer is appended for a positive delta when there is no
    layer or the last one has another Z (the new layer has the target Z), and
    for a non-positive delta when there is no layer at all (the new layer has
    the previous Z).  All layers before the last are left as they are. *)
Theorem X1_linear_line_changes_last_layer_only (pf : string -> num)
        (it : Interp) (line : string) :
  current_is_last it ->
  is_linear line = true ->
  let tool := active_tool line it in
  let tgt := target (state it) (args_of pf line) tool in
  let positive := ngt (extrusion_delta (state it) tgt) (num_of_Z 0) in
  let extr := positive || truthy (State.extruding (state it)) in
  exists init l,
    layers (processLine pf it line) =
    init ++ [push_segment extr tool (segment (state it) tgt) l] /\
    (layers it = init ++ [l]
     \/ (layers it = init /\ positive = true /\
         l = Layer.mk [] [] [] (State.z tgt) /\
         forall l0, last init = Some l0 ->
                    nneq (State.z tgt) (Layer.z l0) = true)
     \/ (layers it = [] /\ init = [] /\ positive = false /\
         l = Layer.mk [] [] [] (State.z (state it)))).
Proof.
  intros Hw Hlin tool tgt positive extr.
  rewrite processLine_linear by by apply is_linear_cmd.
  apply (linear_move_shape (args_of pf line)
           (set_tcode (active_tool line it) it)).
  by apply current_is_last_set_tcode.
Qed.

(** X2. Throughout a parse [currentLayer] is [undefined] exactly as long as
    [layers] is empty, and refers to the last layer afterwards. *)
Theorem X2_current_layer_is_last_layer (pf : string -> num) (tc : nat)
        (lines : list string) :
  let it := run pf (interp_init tc) lines in
  (currentLayer it = None <-> layers it = []) /\
  (forall c, currentLayer it = Some c <-> length (layers it) = S c).
Proof.
  intros it.
  assert (current_is_last it) as Hw
    by apply current_is_last_run, current_is_last_init.
  unfold current_is_last in Hw.
  destruct (currentLayer it) as [c|] eqn:Hc.
  - split.
    + split; [done|]. intros Hnil. by rewrite Hnil in Hw.
    + intros c'. split; [by intros [= <-] | intros Hlen; f_equal; lia].
  - split; [done|]. intros c. split; [done|]. by rewrite Hw.
Qed.

(** X3. Every array of every layer holds whole segments, six coordinates
    each, and so do the positions of every child of the group that [parse]
    returns, with [splitLayer] set or not. *)
Theorem X3_whole_segments (pf : string -> num) (loader : GCodeLoaderLayer)
        (tc : nat) (data : string) :
  Forall (fun l => forall c, (6 | length (class_list c l)))
         (parse_layers pf tc data) /\
  Forall (fun o => (6 | length (positions o)))
         (fst (parse pf loader tc data)).
Proof.
  assert (Forall (fun l => forall c, (6 | length (class_list c l)))
                 (parse_layers pf tc data)) as Hall.
  { apply Forall_layers_run; [|apply current_is_last_init|by constructor].
    intros extr t p1 p2 l Hl c.
    rewrite class_list_push_segment, length_app.
    apply Nat.divide_add_r.
    - destruct Hl as [Hl | [z ->]]; [done|]. destruct c; by exists 0%nat.
    - destruct (decide _); [by exists 1%nat | by exists 0%nat]. }
  split; [done|].
  unfold parse, build_object; simpl. fold (parse_layers pf tc data).
  assert (forall c, (6 | length (all_of c (parse_layers pf tc data))))
    as Hcat.
  { intros c. induction Hall as [|l ls Hl _ IH]; [by exists 0%nat|].
    unfold all_of; simpl. rewrite length_app.
    by apply Nat.divide_add_r. }
  destruct (splitLayer loader).
  - rewrite split_objects_children; simpl.
    by apply (whole_segments_children _ 0).
  - rewrite flatten_layers_concat. unfold addObject; simpl.
    repeat constructor; simpl;
      [apply (Hcat Extruded) | apply (Hcat Travel) | apply (Hcat Support)].
Qed.

(** X4. The layers of a parse hold six coordinates per line whose command
    code is G0 or G1: each such line records exactly one segment and no
    other line records any. *)
Theorem X4_one_segment_per_linear_line (pf : string -> num) (tc : nat)
        (data : string) :
  coordinates (parse_layers pf tc data) =
  (6 * length (List.filter is_linear (lines_of data)))%nat.
Proof.
  unfold parse_layers.
  by rewrite coordinates_run by apply current_is_last_init.
Qed.

(** X5. No layer is empty: every layer of a parse holds at least one
    segment, so there are at most as many layers as there are G0/G1 lines. *)
Theorem X5_no_empty_layer (pf : string -> num) (tc : nat) (data : string) :
  Forall (fun l => 6 <= layer_size l)%nat (parse_layers pf tc data) /\
  (length (parse_layers pf tc data) <=
   length (List.filter is_linear (lines_of data)))%nat.
Proof.
  assert (Forall (fun l => 6 <= layer_size l)%nat (parse_layers pf tc data))
    as Hall.
  { apply Forall_layers_run; [|apply current_is_last_init|by constructor].
    intros extr t p1 p2 l _. rewrite layer_size_push_segment. lia. }
  split; [done|].
  pose proof (coordinates_run pf (lines_of data) (interp_init tc)
                (current_is_last_init tc)) as Hcount.
  fold (parse_layers pf tc data) in Hcount. simpl in Hcount.
  assert (6 * length (parse_layers pf tc data) <=
          coordinates (parse_layers pf tc data))%nat as Hle.
  { clear Hcount. induction Hall as [|l ls Hl _ IH]; [done|].
    unfold coordinates in *. simpl. lia. }
  unfold coordinates in *. simpl in *. lia.
Qed.

(** X6. Neighbouring layers of a parse never have the same Z: each layer
    after the first was started because the target Z was [!=] the Z of the
    layer before it. *)
Theorem X6_neighbouring_layers_differ_in_z (pf : string -> num) (tc : nat)
        (data : string) :
  adjacent_differ (Layer.z <$> parse_layers pf tc data) = true.
Proof.
  apply adjacent_differ_run; [apply current_is_last_init | done].
Qed.

(** X7. A text without G0/G1 line gives no layer: with [splitLayer] set the
    group has no child, and without it the group has its three children,
    named layer0, with no position. *)
Theorem X7_no_linear_line_no_layer (pf : string -> num) (tc : nat)
        (data : string) :
  Forall (fun line => is_linear line = false) (lines_of data) ->
  parse_layers pf tc data = [] /\
  fst (parse pf constructor tc data) = [] /\
  fst (parse pf (mkLoader false) tc data) =
  [mkLineSegments [] extrudingMaterial 0; mkLineSegments [] pathMaterial 0;
   mkLineSegments [] supportMaterial 0].
Proof.
  intros Hall.
  destruct (run_not_linear pf (lines_of data) (interp_init tc) Hall)
    as [Hls _].
  unfold parse_layers, parse. simpl. by rewrite Hls.
Qed.
(** ** The commands that move nothing *)

Lemma processLine_G92 (pf : string -> num) (it : Interp) (line : string) :
  cmd_of line = "G92" ->
  processLine pf it line =
  set_state (set_position (args_of pf line) (state it))
            (set_tcode (active_tool line it) it).
Proof. unfold processLine, dispatch. by intros ->. Qed.

Lemma processLine_mode (pf : string -> num) (it : Interp) (line : string)
      (b : bool) :
  cmd_of line = (if b then "G91" else "G90") ->
  processLine pf it line =
  set_state (set_relative b (state it)) (set_tcode (active_tool line it) it).
Proof. unfold processLine, dispatch. intros ->. by destruct b. Qed.

(** X8. A G92 line records no segment and starts no layer; each of x, y,
    z and e becomes the parameter of that letter when the line has one and
    is kept otherwise, whatever the positioning mode; f, the extruding flag
    and the positioning mode are kept. *)
Theorem X8_set_position_moves_nothing (pf : string -> num) (it : Interp)
        (line : string) :
  cmd_of line = "G92" ->
  let it' := processLine pf it line in
  let args := args_of pf line in
  layers it' = layers it /\
  currentLayer it' = currentLayer it /\
  State.x (state it') = default (State.x (state it)) (args !! "x") /\
  State.y (state it') = default (State.y (state it)) (args !! "y") /\
  State.z (state it') = default (State.z (state it)) (args !! "z") /\
  State.e (state it') = default (State.e (state it)) (args !! "e") /\
  State.f (state it') = State.f (state it) /\
  State.extruding (state it') = State.extruding (state it) /\
  State.relative (state it') = State.relative (state it).
Proof. intros Hcmd it' args. subst it'. by rewrite processLine_G92. Qed.

(** X9. G92 sets the origin of the extrusion delta: in absolute mode, a
    G0/G1 line with E parameter [v] that follows a G92 line with E parameter
    [v0] has delta [v - v0], whatever [state.e] was before the G92. *)
Theorem X9_set_position_rebases_delta (pf : string -> num) (it : Interp)
        (reset move : string) (v0 v : num) :
  cmd_of reset = "G92" ->
  args_of pf reset !! "e" = Some v0 ->
  args_of pf move !! "e" = Some v ->
  truthy (State.relative (state it)) = false ->
  let it1 := processLine pf it reset in
  extrusion_delta (state it1)
    (target (state it1) (args_of pf move) (active_tool move it1)) =
  nsub v v0.
Proof.
  intros Hcmd He0 He Hrel it1. subst it1.
  rewrite processLine_G92 by done. simpl.
  unfold extrusion_delta, delta, target; simpl. rewrite Hrel, He0; simpl.
  destruct (_ =? _)%nat; simpl; rewrite He; unfold coord, absolute; simpl;
    by rewrite Hrel.
Qed.

(** X10. A G90 or G91 line records no segment, starts no layer and leaves
    the position, e, f and the extruding flag as they are; it sets the
    positioning mode, relative for G91 and absolute for G90. *)
Theorem X10_mode_commands (pf : string -> num) (it : Interp) (line : string)
        (b : bool) :
  cmd_of line = (if b then "G91" else "G90") ->
  let it' := processLine pf it line in
  layers it' = layers it /\
  currentLayer it' = currentLayer it /\
  State.relative (state it') = Some b /\
  State.x (state it') = State.x (state it) /\
  State.y (state it') = State.y (state it) /\
  State.z (state it') = State.z (state it) /\
  State.e (state it') = State.e (state it) /\
  State.f (state it') = State.f (state it) /\
  State.extruding (state it') = State.extruding (state it).
Proof. intros Hcmd it'. subst it'. by rewrite (processLine_mode pf it line b). Qed.

(** X11. Relative positioning lasts for one move: the state that replaces
    [state] after a G0/G1 has no [relative] property.  With tool 0
    throughout, the first G0/G1 after a G91 adds its X parameter to
    [state.x], and the G0/G1 after that one takes its X parameter as the
    target itself. *)
Theorem X11_relative_lasts_one_move (pf : string -> num) (it : Interp)
        (g91 move1 move2 : string) (v1 v2 : num) :
  cmd_of g91 = "G91" ->
  is_linear move1 = true ->
  is_linear move2 = true ->
  args_of pf move1 !! "x" = Some v1 ->
  args_of pf move2 !! "x" = Some v2 ->
  tcode it = 0%nat ->
  includes "T1" g91 = false ->
  includes "T1" move1 = false ->
  includes "T1" move2 = false ->
  let it1 := processLine pf (processLine pf it g91) move1 in
  let it2 := processLine pf it1 move2 in
  State.x (state it1) = nadd (State.x (state it)) v1 /\
  State.relative (state it1) = None /\
  State.x (state it2) = v2.
Proof.
  intros Hg Hm1 Hm2 Hx1 Hx2 Htc Ht0 Ht1 Ht2 it1 it2. subst it1 it2.
  rewrite (processLine_linear pf _ move2) by by apply is_linear_cmd.
  rewrite (processLine_linear pf _ move1) by by apply is_linear_cmd.
  rewrite (processLine_mode pf it g91 true) by done.
  rewrite !state_linear_move. unfold active_tool. simpl.
  rewrite tcode_addSegment, detect_layer_tcode. simpl.
  unfold tool_markers. rewrite Htc, Ht0, Ht1, Ht2.
  assert (forall s, (if includes "T0" s then 0 else 0)%nat = 0%nat) as Hz
    by (intros s; destruct (includes "T0" s); reflexivity).
  rewrite !Hz. unfold target; simpl. by rewrite Hx1, Hx2.
Qed.
(** ** Lines and tokens *)

Lemma split_nonempty (sep : ascii) (s : string) : split sep s <> [].
Proof.
  destruct s as [|c r]; simpl; [done|].
  destruct (Ascii.eqb c sep); [done|]. by destruct (split sep r).
Qed.

Lemma length_split_cons (sep c : ascii) (r : string) :
  length (split sep (String c r)) =
  if Ascii.eqb c sep then S (length (split sep r)) else length (split sep r).
Proof.
  simpl. destruct (Ascii.eqb c sep); [done|].
  pose proof (split_nonempty sep r). by destruct (split sep r).
Qed.

Lemma not_terminator_not_newline (c : ascii) :
  is_line_terminator c = false -> Ascii.eqb c "010" = false.
Proof. unfold is_line_terminator. by intros [? _]%orb_false_elim. Qed.

Lemma length_split_strip_comments (skipping : bool) (s : string) :
  length (split "010" (strip_comments skipping s)) =
  length (split "010" s).
Proof.
  revert skipping. induction s as [|c r IH]; intros skipping; [done|].
  rewrite (length_split_cons _ c r).
  cbn [strip_comments]. destruct skipping.
  - destruct (is_line_terminator c) eqn:Ht.
    + by rewrite length_split_cons, IH.
    + by rewrite (not_terminator_not_newline c Ht), IH.
  - destruct (Ascii.eqb c ";") eqn:Hsemi.
    + apply Ascii.eqb_eq in Hsemi as ->.
      change (Ascii.eqb ";" "010") with false. cbv iota.
      destruct r as [|d r']; [done|].
      destruct (is_line_terminator d).
      * by rewrite length_split_cons, IH.
      * by rewrite IH.
    + by rewrite length_split_cons, IH.
Qed.

(** X12. Removing the comments keeps the number of lines: the line of index
    [i] of the loop comes from the line of index [i] of the text. *)
Theorem X12_comments_keep_line_count (data : string) :
  length (lines_of data) = length (split "010" data).
Proof. apply length_split_strip_comments. Qed.

(** X13. A line that starts with a space has an empty command code: it
    records nothing and leaves [state] as it is, even when a G0/G1 follows
    the space; only its tool markers are seen.  An empty line changes
    nothing at all. *)
Theorem X13_indented_line_is_skipped (pf : string -> num) (it : Interp)
        (rest : string) :
  let it' := processLine pf it (String " " rest) in
  cmd_of (String " " rest) = "" /\
  state it' = state it /\
  layers it' = layers it /\
  currentLayer it' = currentLayer it /\
  processLine pf it "" = it.
Proof.
  intros it'. subst it'.
  rewrite (processLine_unrecognised pf it (String " " rest)) by done.
  rewrite (processLine_unrecognised pf it "") by done.
  repeat split. by destruct it.
Qed.
Lemma includes_space_cons (c : ascii) (r : string) :
  includes " " (String c r) = false ->
  Ascii.eqb c " " = false /\ includes " " r = false.
Proof.
  simpl. intros [Hp Hr]%orb_false_elim. split; [|done].
  destruct (ascii_dec " " c) as [<-|Hne]; [by destruct r|].
  apply Ascii.eqb_neq. congruence.
Qed.

Lemma split_single_token (s : string) :
  includes " " s = false -> split " " s = [s].
Proof.
  induction s as [|c r IH]; [done|].
  intros [Hc Hr]%includes_space_cons. simpl. by rewrite Hc, IH.
Qed.

Lemma split_append (sep : ascii) (a b : string) :
  split sep (a +:+ String sep b) = split sep a ++ split sep b.
Proof.
  induction a as [|c r IH]; simpl.
  - by rewrite Ascii.eqb_refl.
  - destruct (Ascii.eqb c sep); [by rewrite IH|].
    rewrite IH. pose proof (split_nonempty sep r).
    by destruct (split sep r).
Qed.

Lemma toUpperCase_append (a b : string) :
  toUpperCase (a +:+ b) = toUpperCase a +:+ toUpperCase b.
Proof. induction a as [|c r IH]; simpl; [done | by rewrite IH]. Qed.

Lemma recognised_carriage_return (s : string) :
  recognised (s +:+ String "013" "") = false.
Proof.
  apply not_true_is_false. unfold recognised. intros H.
  repeat (apply orb_true_iff in H as [H|H]);
    apply String.eqb_eq in H;
    destruct s as [|? [|? [|? [|? ?]]]];
    cbv beta iota delta [String.append] in H; congruence.
Qed.

Lemma includes_space_append (a b : string) :
  includes " " a = false -> includes " " b = false ->
  includes " " (a +:+ b) = false.
Proof.
  intros Ha Hb. induction a as [|c r IH]; [done|].
  apply includes_space_cons in Ha as [Hc Hr].
  change (String c r +:+ b) with (String c (r +:+ b)).
  cbn [includes String.prefix]. rewrite (IH Hr), orb_false_r.
  destruct (ascii_dec " " c) as [<-|]; [|done].
  by rewrite Ascii.eqb_refl in Hc.
Qed.

(** X14. A line that is one token followed by a carriage return, as the
    lines of a text with CR LF line ends are, has no recognised command
    code, the carriage return being part of it: a G90, G91, G92 or G0/G1
    without parameter on such a line is not carried out. *)
Theorem X14_carriage_return_hides_command (pf : string -> num) (it : Interp)
        (tok : string) :
  includes " " tok = false ->
  let line := tok +:+ String "013" "" in
  let it' := processLine pf it line in
  cmd_of line = toUpperCase tok +:+ String "013" "" /\
  recognised (cmd_of line) = false /\
  state it' = state it /\
  layers it' = layers it /\
  currentLayer it' = currentLayer it.
Proof.
  intros Htok line it'.
  assert (cmd_of line = toUpperCase tok +:+ String "013" "") as Hcmd.
  { unfold cmd_of, line. rewrite split_single_token.
    - by rewrite toUpperCase_append.
    - by apply includes_space_append. }
  assert (recognised (cmd_of line) = false) as Hrec
    by (rewrite Hcmd; apply recognised_carriage_return).
  subst it'. by rewrite processLine_unrecognised.
Qed.

(** X15. A parameter token appended to a line, after a space, keeps the
    command code and sets the property named by its first character in
    lower case to [parseFloat] of the rest: a later parameter replaces an
    earlier one of the same letter, in either case of the letter, and the
    other properties of [args] are as without the token. *)
Theorem X15_appended_parameter (pf : string -> num) (line : string)
        (c : ascii) (rest : string) :
  includes " " (String c rest) = false ->
  let line' := line +:+ String " " (String c rest) in
  let key := String (lower_ascii c) "" in
  cmd_of line' = cmd_of line /\
  args_of pf line' = <[key := pf rest]> (args_of pf line) /\
  args_of pf line' !! key = Some (pf rest) /\
  (forall k, k <> key -> args_of pf line' !! k = args_of pf line !! k).
Proof.
  intros Htok line' key.
  assert (split " " line' = split " " line ++ [String c rest]) as Hsplit.
  { unfold line'. rewrite split_append.
    by rewrite (split_single_token (String c rest)). }
  pose proof (split_nonempty " " line) as Hne.
  assert (args_of pf line' = <[key := pf rest]> (args_of pf line)) as Hargs.
  { unfold args_of. rewrite Hsplit.
    destruct (split " " line) as [|t ts]; [done|]. simpl.
    by rewrite foldl_app. }
  split; [|split; [done|split]].
  - unfold cmd_of. rewrite Hsplit. by destruct (split " " line).
  - rewrite Hargs. apply lookup_insert_eq.
  - intros k Hk. rewrite Hargs. by apply lookup_insert_ne.
Qed.
(** ** The tool index and the classification *)

Lemma tool_markers_le (line : string) (tc : nat) :
  (tc <= 1)%nat -> (tool_markers line tc <= 1)%nat.
Proof.
  unfold tool_markers. intros Htc.
  destruct (includes "T0" line), (includes "T1" line); lia.
Qed.

Lemma tool_markers_idemp (line : string) (tc : nat) :
  tool_markers line (tool_markers line tc) = tool_markers line tc.
Proof.
  unfold tool_markers.
  by destruct (includes "T0" line), (includes "T1" line).
Qed.

Lemma tcode_run_le (pf : string -> num) (lines : list string) (it : Interp) :
  (tcode it <= 1)%nat -> (tcode (run pf it lines) <= 1)%nat.
Proof.
  unfold run. revert it.
  induction lines as [|l ls IH]; intros it Htc; [done|].
  simpl. apply IH. rewrite tcode_processLine. by apply tool_markers_le.
Qed.

(** X16. The tool index never leaves 0 and 1 when a parse starts with 0 or
    1, as it does from the loading of the module on.  In such a parse a
    G0/G1 line is recorded as travel exactly when its extrusion delta is not
    positive. *)
Theorem X16_travel_iff_delta_not_positive (pf : string -> num) (tc : nat)
        (before : list string) (line : string) :
  (tc <= 1)%nat ->
  is_linear line = true ->
  let it := run pf (interp_init tc) before in
  let tool := active_tool line it in
  let tgt := target (state it) (args_of pf line) tool in
  let positive := ngt (extrusion_delta (state it) tgt) (num_of_Z 0) in
  (tcode it <= 1)%nat /\
  (tool <= 1)%nat /\
  (tcode (processLine pf it line) <= 1)%nat /\
  all_of Travel (layers (processLine pf it line)) =
  all_of Travel (layers it) ++
  (if positive then [] else segment (state it) tgt).
Proof.
  intros Htc Hlin it tool tgt positive.
  assert (tcode it <= 1)%nat as Hit by by apply tcode_run_le.
  assert (tool <= 1)%nat as Htool by by apply tool_markers_le.
  split; [done|]. split; [done|]. split.
  { rewrite tcode_processLine. by apply tool_markers_le. }
  rewrite processLine_linear by by apply is_linear_cmd.
  rewrite all_of_linear_move
    by by apply current_is_last_set_tcode, current_is_last_run,
            current_is_last_init.
  assert (truthy (State.extruding (state it)) = false) as Hflag
    by by apply flag_clear_run.
  cbn [state layers tcode set_tcode]. fold tool. fold tgt. fold positive.
  rewrite Hflag, orb_false_r.
  destruct positive; [|done].
  destruct tool as [|[|n]]; [done|done|lia].
Qed.

(** X17. With [splitLayer] set, the group has, for each layer in order,
    three children in a row named after the index of the layer, which carry
    its extruded, travel and support coordinates in that order. *)
Theorem X17_split_group_children (pf : string -> num) (tc : nat)
        (data : string) :
  fst (parse pf constructor tc data) =
  concat (imap layer_children (parse_layers pf tc data)) /\
  length (fst (parse pf constructor tc data)) =
  (3 * length (parse_layers pf tc data))%nat.
Proof.
  assert (fst (parse pf constructor tc data) =
          concat (imap layer_children (parse_layers pf tc data))) as H.
  { unfold parse, build_object; simpl. by rewrite split_objects_children. }
  split; [done|]. rewrite H.
  assert (forall ls (g : nat -> Layer.t -> list LineSegments),
             (forall i l, length (g i l) = 3%nat) ->
             length (concat (imap g ls)) = (3 * length ls)%nat) as Hlen.
  { induction ls as [|l ls IH]; intros g Hg; [done|].
    rewrite imap_cons; simpl. rewrite length_app, Hg, IH; [lia|].
    intros i x. apply Hg. }
  by apply Hlen.
Qed.
(** ** The same absolute move twice *)

Lemma ngt_nsub_self (a : num) : ngt (nsub a a) (num_of_Z 0) = false.
Proof.
  destruct a as [|q]; [done|]. simpl.
  apply negb_false_iff, Qle_bool_iff.
  unfold Qminus. rewrite Qplus_opp_r. apply Qle_refl.
Qed.

Lemma target_absolute_idemp (st : State.t) (args : gmap string num)
      (tc : nat) :
  truthy (State.relative st) = false ->
  target (target st args tc) args tc = target st args tc.
Proof.
  intros Hrel. unfold target.
  destruct (tc =? 0)%nat; simpl; unfold coord, absolute; simpl; rewrite Hrel;
    f_equal; by repeat case_match.
Qed.

(** X18. In absolute mode a G0/G1 line processed a second time leaves
    [state] as the first time left it, starts no layer, and records a
    segment of length zero, from the position reached to itself, as
    travel. *)
Theorem X18_repeated_absolute_move (pf : string -> num) (it : Interp)
        (line : string) (c : Class) :
  current_is_last it ->
  is_linear line = true ->
  truthy (State.relative (state it)) = false ->
  let it1 := processLine pf it line in
  let it2 := processLine pf it1 line in
  state it2 = state it1 /\
  length (layers it2) = length (layers it1) /\
  all_of c (layers it2) =
  all_of c (layers it1) ++
  (if decide (c = Travel) then segment (state it1) (state it1) else []).
Proof.
  intros Hw Hlin Hrel it1 it2.
  assert (current_is_last it1) as Hw1
    by by apply current_is_last_processLine.
  assert (state it1 =
          target (state it) (args_of pf line) (active_tool line it)) as Hst1.
  { unfold it1. by rewrite processLine_linear by by apply is_linear_cmd. }
  assert (active_tool line it1 = active_tool line it) as Htool.
  { unfold active_tool, it1.
    by rewrite tcode_processLine, tool_markers_idemp. }
  assert (target (state it1) (args_of pf line) (active_tool line it1) =
          state it1) as Htgt.
  { rewrite Htool, Hst1. by apply target_absolute_idemp. }
  assert (State.extruding (state it1) = None /\
          State.relative (state it1) = None) as [Hextr Hrel1].
  { rewrite Hst1. unfold target. by destruct (_ =? _)%nat. }
  assert (ngt (extrusion_delta (state it1) (state it1)) (num_of_Z 0) = false)
    as Hdelta.
  { unfold extrusion_delta, delta. rewrite Hrel1; simpl.
    apply ngt_nsub_self. }
  assert (it2 = linear_move (args_of pf line)
                            (set_tcode (active_tool line it1) it1)) as Hit2
    by (unfold it2; by rewrite processLine_linear by by apply is_linear_cmd).
  pose proof (current_is_last_set_tcode (active_tool line it1) it1 Hw1)
    as Hw1'.
  split; [|split].
  - by rewrite Hit2, state_linear_move.
  - rewrite Hit2.
    destruct (linear_move_shape (args_of pf line) _ Hw1')
      as (init & l & -> & Hcase).
    cbn [state layers tcode set_tcode] in Hcase. rewrite Htgt in Hcase.
    rewrite Hdelta in Hcase.
    destruct Hcase as [-> | [(_ & ? & _) | (Hnil & _)]]; [|done|].
    + by rewrite !length_app.
    + exfalso. unfold it1 in Hnil.
      rewrite processLine_linear in Hnil by by apply is_linear_cmd.
      destruct (linear_move_shape (args_of pf line)
                  (set_tcode (active_tool line it) it))
        as (init' & l' & Hls & _); [done|].
      rewrite Hls in Hnil. by destruct init'.
  - rewrite Hit2, all_of_linear_move by done.
    cbn [state layers tcode set_tcode]. rewrite Htgt, Hdelta, Hextr. simpl.
    destruct c; simpl; try done.
    all: by destruct (active_tool line it1) as [|[|n]].
Qed.
(** ** Concrete runs of the further properties *)

Lemma X1_witness :
  current_is_last (interp_init 0) /\
  is_linear "G1 X10 E1" = true /\
  exists init l,
    layers (processLine parseFloat_dec (interp_init 0) "G1 X10 E1") =
    init ++
    [push_segment true 0
       [num_of_Z 0; num_of_Z 0; num_of_Z 0;
        num_of_Z 10; num_of_Z 0; num_of_Z 0] l].
Proof.
  split; [reflexivity|]. split; [reflexivity|].
  destruct (X1_linear_line_changes_last_layer_only parseFloat_dec
              (interp_init 0) "G1 X10 E1" (current_is_last_init 0) eq_refl)
    as (init & l & Hls & _).
  exists init, l. exact Hls.
Defined.

Lemma X7_witness :
  Forall (fun line => is_linear line = false)
         (lines_of ("G90" +:+ newline +:+ "M104 S200 ;G1 X1")) /\
  parse_layers parseFloat_dec 0
    ("G90" +:+ newline +:+ "M104 S200 ;G1 X1") = [].
Proof.
  assert (Forall (fun line => is_linear line = false)
                 (lines_of ("G90" +:+ newline +:+ "M104 S200 ;G1 X1")))
    as H by (vm_compute; repeat constructor).
  split; [exact H|].
  exact (proj1 (X7_no_linear_line_no_layer parseFloat_dec 0 _ H)).
Defined.

Lemma X8_witness :
  cmd_of "G92 X5 E0" = "G92" /\
  State.x (state (processLine parseFloat_dec (interp_init 0) "G92 X5 E0")) =
  num_of_Z 5 /\
  layers (processLine parseFloat_dec (interp_init 0) "G92 X5 E0") = [].
Proof.
  split; [reflexivity|].
  destruct (X8_set_position_moves_nothing parseFloat_dec (interp_init 0)
              "G92 X5 E0" eq_refl) as (Hls & _ & Hx & _).
  split; [rewrite Hx; vm_compute; reflexivity | exact Hls].
Defined.

Lemma X9_witness :
  cmd_of "G92 E0" = "G92" /\
  args_of parseFloat_dec "G92 E0" !! "e" = Some (num_of_Z 0) /\
  args_of parseFloat_dec "G1 X1 E3" !! "e" = Some (num_of_Z 3) /\
  truthy (State.relative (state (interp_init 0))) = false /\
  extrusion_delta
    (state (processLine parseFloat_dec (interp_init 0) "G92 E0"))
    (target (state (processLine parseFloat_dec (interp_init 0) "G92 E0"))
            (args_of parseFloat_dec "G1 X1 E3")
            (active_tool "G1 X1 E3"
               (processLine parseFloat_dec (interp_init 0) "G92 E0"))) =
  nsub (num_of_Z 3) (num_of_Z 0).
Proof.
  split; [reflexivity|]. split; [vm_compute; reflexivity|].
  split; [vm_compute; reflexivity|]. split; [reflexivity|].
  apply (X9_set_position_rebases_delta parseFloat_dec (interp_init 0)
           "G92 E0" "G1 X1 E3" (num_of_Z 0) (num_of_Z 3));
    [reflexivity | vm_compute; reflexivity | vm_compute; reflexivity
     | reflexivity].
Defined.

Lemma X10_witness :
  cmd_of "G91" = "G91" /\
  State.relative (state (processLine parseFloat_dec (interp_init 0) "G91")) =
  Some true.
Proof.
  split; [reflexivity|].
  destruct (X10_mode_commands parseFloat_dec (interp_init 0) "G91" true
              eq_refl) as (_ & _ & H & _).
  exact H.
Defined.

Lemma X11_witness :
  let it := processLine parseFloat_dec (interp_init 0) "G1 X5" in
  let it1 :=
    processLine parseFloat_dec (processLine parseFloat_dec it "G91")
                "G1 X5" in
  let it2 := processLine parseFloat_dec it1 "G1 X5" in
  cmd_of "G91" = "G91" /\ is_linear "G1 X5" = true /\
  args_of parseFloat_dec "G1 X5" !! "x" = Some (num_of_Z 5) /\
  tcode it = 0%nat /\ includes "T1" "G91" = false /\
  includes "T1" "G1 X5" = false /\
  State.x (state it1) = nadd (State.x (state it)) (num_of_Z 5) /\
  State.x (state it2) = num_of_Z 5.
Proof.
  intros it it1 it2.
  assert (args_of parseFloat_dec "G1 X5" !! "x" = Some (num_of_Z 5)) as Hx
    by (vm_compute; reflexivity).
  destruct (X11_relative_lasts_one_move parseFloat_dec it "G91" "G1 X5"
              "G1 X5" (num_of_Z 5) (num_of_Z 5) eq_refl eq_refl eq_refl
              Hx Hx eq_refl eq_refl eq_refl eq_refl) as (H1 & _ & H2).
  repeat split; first [exact Hx | exact H1 | exact H2].
Defined.

Lemma X14_witness :
  includes " " "G91" = false /\
  state (processLine parseFloat_dec (interp_init 0)
           ("G91" +:+ String "013" "")) =
  state (interp_init 0).
Proof.
  split; [reflexivity|].
  destruct (X14_carriage_return_hides_command parseFloat_dec (interp_init 0)
              "G91" eq_refl) as (_ & _ & H & _).
  exact H.
Defined.

Lemma X15_witness :
  includes " " "x2" = false /\
  args_of parseFloat_dec ("G1 X1" +:+ " x2") !! "x" = Some (num_of_Z 2).
Proof.
  split; [reflexivity|].
  destruct (X15_appended_parameter parseFloat_dec "G1 X1" "x"%char "2"
              eq_refl) as (_ & _ & H & _).
  exact H.
Defined.

Lemma X16_witness :
  (0 <= 1)%nat /\ is_linear "G1 X2" = true /\
  all_of Travel
    (layers (processLine parseFloat_dec
               (run parseFloat_dec (interp_init 0) ["G1 X1 E1"]) "G1 X2")) =
  [num_of_Z 1; num_of_Z 0; num_of_Z 0; num_of_Z 2; num_of_Z 0; num_of_Z 0].
Proof.
  split; [lia|]. split; [reflexivity|].
  destruct (X16_travel_iff_delta_not_positive parseFloat_dec 0
              ["G1 X1 E1"] "G1 X2" (le_S 0 0 (le_n 0)) eq_refl)
    as (_ & _ & _ & H).
  rewrite H. vm_compute. reflexivity.
Defined.

Lemma X18_witness :
  current_is_last (interp_init 0) /\
  is_linear "G1 X5 E1" = true /\
  truthy (State.relative (state (interp_init 0))) = false /\
  state (processLine parseFloat_dec
           (processLine parseFloat_dec (interp_init 0) "G1 X5 E1")
           "G1 X5 E1") =
  state (processLine parseFloat_dec (interp_init 0) "G1 X5 E1").
Proof.
  split; [reflexivity|]. split; [reflexivity|]. split; [reflexivity|].
  destruct (X18_repeated_absolute_move parseFloat_dec (interp_init 0)
              "G1 X5 E1" Travel (current_is_last_init 0) eq_refl eq_refl)
    as (H & _).
  exact H.
Defined.
